(** * Sparky: motion control of a Go2 robot

    A shallow embedding of [src/sparky/core/motion.py] (class
    [MotionController]), of [src/sparky/robot.py] (class [Robot]) and of the
    retry loop of [examples/testing/basic_movement_test.py], with the
    properties that the specification states about command dispatch:
    blocked and unknown commands, failures, retries, waiting, concurrent
    callers and the emergency stop.

    The Python methods are [async]: they read and write the fields of
    [self], await the transport ([publish_request_new]) and await
    [asyncio.sleep]. They are embedded as coroutines over exactly these
    effects, so that one definition serves both the sequential reading (one
    caller awaiting each call) and the interleaved reading (several asyncio
    tasks sharing one robot). Calls to [logger] have no effect on the
    controller or on the transport and are left out.

    The driver's command table [SPORT_CMD] is imported by the sources from
    [go2_webrtc_driver.constants]; the methods are embedded for an arbitrary
    table, and concrete calls use the entries whose ids the repository
    records. *)

From Stdlib Require Import ZArith QArith Qabs Lqa Ascii String.
From stdpp Require Import gmap strings pretty list fin_maps.

Open Scope string_scope.
Open Scope list_scope.
Open Scope Z_scope.

(** ** Python strings

    Command and direction names are ASCII text; [lower], [replace] and
    [title] below are Python's [str.lower], [str.replace] (for one-character
    arguments) and [str.title] on ASCII strings. *)

Module PyStr.

Definition is_upper (c : ascii) : bool :=
  let n := nat_of_ascii c in (65 <=? n)%nat && (n <=? 90)%nat.

Definition is_lower (c : ascii) : bool :=
  let n := nat_of_ascii c in (97 <=? n)%nat && (n <=? 122)%nat.

Definition to_lower (c : ascii) : ascii :=
  if is_upper c then ascii_of_nat (nat_of_ascii c + 32) else c.

Definition to_upper (c : ascii) : ascii :=
  if is_lower c then ascii_of_nat (nat_of_ascii c - 32) else c.

Fixpoint lower (s : string) : string :=
  match s with
  | EmptyString => EmptyString
  | String c s' => String (to_lower c) (lower s')
  end.

Fixpoint replace (old new : ascii) (s : string) : string :=
  match s with
  | EmptyString => EmptyString
  | String c s' =>
      String (if Ascii.eqb c old then new else c) (replace old new s')
  end.

(** [str.title]: a cased character is upper-cased when it starts a run of
    cased characters and lower-cased inside the run; other characters are
    kept and end the run. *)
Fixpoint title_from (previous_is_cased : bool) (s : string) : string :=
  match s with
  | EmptyString => EmptyString
  | String c s' =>
      if is_upper c || is_lower c
      then String (if previous_is_cased then to_lower c else to_upper c)
                  (title_from true s')
      else String c (title_from false s')
  end.

Definition title (s : string) : string := title_from false s.

End PyStr.

(** ** Values, requests and replies *)

(** Values stored in the [parameter] dictionaries sent to the robot. Python
    numbers ([int] and [float] arguments such as speeds and durations) are
    read as rationals. *)
Inductive pyval : Type :=
  | PyBool (b : bool)
  | PyNum (q : Q)
  | PyStr (s : string).

(** A dictionary literal, in insertion order. *)
Definition pydict : Type := list (string * pyval).

(** The two keys of the driver's [RTC_TOPIC] table that the code uses. *)
Inductive topic : Type := MOTION_SWITCHER | SPORT_MOD.

(** The payload [{"api_id": ..., "parameter": ...}] published on a topic;
    [parameter] is [None] for the payload [{"api_id": ...}]. *)
Record request : Type := Publish {
  rq_topic : topic;
  api_id : Z;
  parameter : option pydict
}.

(** Instances of Python's [Exception]: class name and message. *)
Record exn : Type := Exception { exn_class : string; exn_msg : string }.

Definition KeyError (key : string) : exn := Exception "KeyError" key.
Definition AttributeError (what : string) : exn :=
  Exception "AttributeError" what.

(** What awaiting [publish_request_new] yields: the call raises, or it
    returns a response. Of a response the code only reads
    [response['data']['header']['status']['code']]; [Response None] is a
    response in which that path is missing. *)
Inductive outcome : Type :=
  | Raises (e : exn)
  | Response (code : option Z).

(** The transport's answer to one request, with the time it took. *)
Record reply : Type := Reply { latency : Q; result : outcome }.

(** ** Coroutines

    [coro S A] is an [async def] body over an object state [S] with result
    type [A]: it returns, raises, reads or writes the fields of [self], and
    suspends at [await publish_request_new(...)] and at
    [await asyncio.sleep(...)]. *)
Inductive coro (S A : Type) : Type :=
  | Ret (a : A)
  | Throw (e : exn)
  | Load (k : S -> coro S A)
  | Store (s : S) (k : coro S A)
  | Request (rq : request) (k : reply -> coro S A)
  | Sleep (seconds : Q) (k : coro S A).

Arguments Ret {S A} a.
Arguments Throw {S A} e.
Arguments Load {S A} k.
Arguments Store {S A} s k.
Arguments Request {S A} rq k.
Arguments Sleep {S A} seconds k.

Fixpoint coro_bind {S A B} (f : A -> coro S B) (m : coro S A) : coro S B :=
  match m with
  | Ret a => f a
  | Throw e => Throw e
  | Load k => Load (fun s => coro_bind f (k s))
  | Store s k => Store s (coro_bind f k)
  | Request rq k => Request rq (fun r => coro_bind f (k r))
  | Sleep d k => Sleep d (coro_bind f k)
  end.

#[global] Instance coro_ret {S} : MRet (coro S) := fun A a => Ret a.
#[global] Instance coro_mbind {S} : MBind (coro S) :=
  fun A B f m => coro_bind f m.

(** [try: body  except Exception as e: handler e]. *)
Fixpoint try_except {S A} (body : coro S A) (handler : exn -> coro S A)
  : coro S A :=
  match body with
  | Ret a => Ret a
  | Throw e => handler e
  | Load k => Load (fun s => try_except (k s) handler)
  | Store s k => Store s (try_except k handler)
  | Request rq k => Request rq (fun r => try_except (k r) handler)
  | Sleep d k => Sleep d (try_except k handler)
  end.

(** [await self.conn.datachannel.pub_sub.publish_request_new(topic, payload)]. *)
Definition publish_request_new {S} (rq : request) : coro S (option Z) :=
  Request rq (fun r =>
    match result r with
    | Raises e => Throw e
    | Response code => Ret code
    end).

(** [response['data']['header']['status']['code']]. *)
Definition status_code {S} (response : option Z) : coro S Z :=
  match response with
  | Some code => Ret code
  | None => Throw (KeyError "code")
  end.

(** [await asyncio.sleep(seconds)]. *)
Definition sleep {S} (seconds : Q) : coro S unit := Sleep seconds (Ret tt).

(** A method of a component object called through a field of [self]:
    [get] reads the field, which may hold [None]; [set] is the effect of the
    component's own field updates on [self]. *)
Fixpoint through {S T A} (get : S -> option T) (set : T -> S -> S)
    (m : coro T A) : coro S A :=
  match m with
  | Ret a => Ret a
  | Throw e => Throw e
  | Load k =>
      Load (fun s =>
        match get s with
        | Some t => through get set (k t)
        | None => Throw (AttributeError "NoneType")
        end)
  | Store t k => Load (fun s => Store (set t s) (through get set k))
  | Request rq k => Request rq (fun r => through get set (k r))
  | Sleep d k => Sleep d (through get set k)
  end.

(** ** Sequential execution

    A caller that awaits a coroutine to completion. The transport answers
    each request knowing everything that happened before it. *)
Inductive event : Type :=
  | Sent (rq : request) (r : reply)
  | Slept (seconds : Q).

Definition trace : Type := list event.

Definition transport : Type := trace -> request -> reply.

Inductive returned (A : Type) : Type :=
  | Ok (a : A)
  | Exc (e : exn).

Arguments Ok {A} a.
Arguments Exc {A} e.

Fixpoint run {S A} (m : coro S A) (net : transport) (s : S) (tr : trace)
  : returned A * S * trace :=
  match m with
  | Ret a => (Ok a, s, tr)
  | Throw e => (Exc e, s, tr)
  | Load k => run (k s) net s tr
  | Store s' k => run k net s' tr
  | Request rq k => let r := net tr rq in run (k r) net s (tr ++ [Sent rq r])
  | Sleep d k => run k net s (tr ++ [Slept d])
  end.

(** ** [sparky/core/motion.py] *)

(** The driver connection object held in [self.conn]; the code never looks
    inside it, it only publishes requests through it. *)
Definition driver_connection : Type := nat.

Record MotionController : Type := {
  conn : driver_connection;
  current_mode : option string;
  is_moving : bool
}.

(** [self.is_moving = b] and [self.current_mode = mode] on the record. *)
Definition with_is_moving (b : bool) (c : MotionController)
  : MotionController :=
  {| conn := conn c; current_mode := current_mode c; is_moving := b |}.

Definition with_current_mode (mode : string) (c : MotionController)
  : MotionController :=
  {| conn := conn c; current_mode := Some mode; is_moving := is_moving c |}.

Module motion.
Section WithDriverConstants.

(** [SPORT_CMD], the command table of [go2_webrtc_driver.constants]: a
    dictionary from command names to api ids, imported from the driver. *)
Variable SPORT_CMD : gmap string Z.

(** [SPORT_CMD[key]]. *)
Definition SPORT_CMD_item {S} (key : string) : coro S Z :=
  match SPORT_CMD !! key with
  | Some api => Ret api
  | None => Throw (KeyError key)
  end.

(** [MotionController.__init__]. *)
Definition __init__ (connection : driver_connection) : MotionController :=
  {| conn := connection; current_mode := None; is_moving := false |}.

(** [self.current_mode = mode]. *)
Definition set_current_mode (mode : string) : coro MotionController unit :=
  Load (fun self => Store (with_current_mode mode self) (Ret tt)).

(** [self.is_moving = b]. *)
Definition set_is_moving (b : bool) : coro MotionController unit :=
  Load (fun self => Store (with_is_moving b self) (Ret tt)).

(** [mode in ["normal", "ai"]]. *)
Definition unsupported_mode (mode : string) : bool :=
  bool_decide (mode ∈ ["normal"; "ai"]).

Definition switch_motion_mode (mode : string) : coro MotionController bool :=
  try_except
    (if unsupported_mode mode then Ret false
     else
       response ← publish_request_new
         (Publish MOTION_SWITCHER 1002 (Some [("name", PyStr mode)]));
       code ← status_code response;
       if code =? 0 then
         set_current_mode mode;;
         sleep 5;;
         Ret true
       else Ret false)
    (fun e => Ret false).

Definition move (x y z duration : Q) (verify : bool)
  : coro MotionController bool :=
  try_except
    (api ← SPORT_CMD_item "Move";
     response ← publish_request_new
       (Publish SPORT_MOD api
          (Some [("x", PyNum x); ("y", PyNum y); ("z", PyNum z)]));
     code ← status_code response;
     if code =? 0 then
       set_is_moving true;;
       sleep duration;;
       Ret true
     else Ret false)
    (fun e => Ret false).

Definition stop : coro MotionController bool :=
  try_except
    (api ← SPORT_CMD_item "StopMove";
     response ← publish_request_new (Publish SPORT_MOD api None);
     code ← status_code response;
     if code =? 0 then
       set_is_moving false;;
       Ret true
     else Ret false)
    (fun e => Ret false).

(** Convenience methods: the coordinates they do not pass keep the default
    [0] of [move]. *)
Definition move_forward (speed duration : Q) (verify : bool) :=
  move speed 0 0 duration verify.

Definition move_backward (speed duration : Q) (verify : bool) :=
  move (- speed) 0 0 duration verify.

Definition move_left (speed duration : Q) (verify : bool) :=
  move 0 speed 0 duration verify.

Definition move_right (speed duration : Q) (verify : bool) :=
  move 0 (- speed) 0 duration verify.

Definition turn_left (speed duration : Q) (verify : bool) :=
  move 0 0 speed duration verify.

Definition turn_right (speed duration : Q) (verify : bool) :=
  move 0 0 (- speed) duration verify.

(** Truth value of [parameters : Optional[Dict]]: [None] and the empty
    dictionary are false. *)
Definition truthy (parameters : option pydict) : bool :=
  match parameters with
  | Some (_ :: _) => true
  | _ => false
  end.

Definition execute_sport_command (command_name : string)
    (parameters : option pydict) (verify : bool)
  : coro MotionController bool :=
  try_except
    (if bool_decide (SPORT_CMD !! command_name = None) then Ret false
     else
       response ←
         (if truthy parameters then
            api ← SPORT_CMD_item command_name;
            publish_request_new (Publish SPORT_MOD api parameters)
          else
            api ← SPORT_CMD_item command_name;
            publish_request_new (Publish SPORT_MOD api None));
       code ← status_code response;
       if code =? 0 then
         sleep 2;;
         Ret true
       else Ret false)
    (fun e => Ret false).

End WithDriverConstants.
End motion.

(** ** [sparky/robot.py] *)

(** The fields of [Robot] that the movement methods touch: [connection]
    (the connected [Go2Connection], through its [conn]), [motion] and the
    streaming flag. The data-collection components play no part here. *)
Record Robot : Type := {
  connection : option driver_connection;
  motion : option MotionController;
  _data_streaming_active : bool
}.

(** [self.motion] holding the controller [c]. *)
Definition with_motion (c : MotionController) (r : Robot) : Robot :=
  {| connection := connection r;
     motion := Some c;
     _data_streaming_active := _data_streaming_active r |}.

Module robot.
Section WithDriverConstants.

Variable SPORT_CMD : gmap string Z.

(** [Robot.__init__]. *)
Definition __init__ : Robot :=
  {| connection := None; motion := None; _data_streaming_active := false |}.

(** The state of a robot after a successful [connect]: the connection is
    kept and [self.motion = MotionController(self.connection.conn)]. *)
Definition connected (c : driver_connection) : Robot :=
  {| connection := Some c;
     motion := Some (motion.__init__ c);
     _data_streaming_active := false |}.

(** [await self.motion.method(...)]: the controller is the object held in
    [self.motion], and its methods update that object. *)
Definition self_motion {A} (method : coro MotionController A) : coro Robot A :=
  through motion with_motion method.

Definition move (direction : string) (speed duration : Q) (verify : bool)
  : coro Robot bool :=
  Load (fun self =>
    if negb (bool_decide (is_Some (motion self))) then Ret false
    else
      try_except
        (let direction := PyStr.replace "_" "-" (PyStr.lower direction) in
         if bool_decide (direction = "forward") then
           self_motion (motion.move_forward SPORT_CMD speed duration verify)
         else if bool_decide (direction = "backward") then
           self_motion (motion.move_backward SPORT_CMD speed duration verify)
         else if bool_decide (direction = "left") then
           self_motion (motion.move_left SPORT_CMD speed duration verify)
         else if bool_decide (direction = "right") then
           self_motion (motion.move_right SPORT_CMD speed duration verify)
         else if bool_decide (direction ∈ ["turn-left"; "turnleft"]) then
           self_motion (motion.turn_left SPORT_CMD speed duration verify)
         else if bool_decide (direction ∈ ["turn-right"; "turnright"]) then
           self_motion (motion.turn_right SPORT_CMD speed duration verify)
         else if bool_decide (direction = "stop") then
           self_motion (motion.stop SPORT_CMD)
         else Ret false)
        (fun e => Ret false)).

Definition command (command : string) (verify : bool) : coro Robot bool :=
  Load (fun self =>
    if negb (bool_decide (is_Some (motion self))) then Ret false
    else
      try_except
        (self_motion
           (motion.execute_sport_command SPORT_CMD (PyStr.title command)
              None verify))
        (fun e => Ret false)).

(** Convenience methods. *)
Definition hello : coro Robot bool := command "hello" true.
Definition sit : coro Robot bool := command "sit" true.
Definition stand_up : coro Robot bool := command "standup" true.

End WithDriverConstants.
End robot.

(** The entries of the driver's [SPORT_CMD] whose ids the repository itself
    records: [BASIC_MOVEMENTS] in [basic_movement_test.py] and
    ["advanced_movements"] in [get_firmware_compatibility_info]. *)
Definition go2_SPORT_CMD : gmap string Z :=
  list_to_map
    [("Damp", 1001); ("BalanceStand", 1002); ("StopMove", 1003);
     ("StandUp", 1004); ("StandDown", 1005); ("RecoveryStand", 1006);
     ("Move", 1008); ("Sit", 1009); ("RiseSit", 1010);
     ("FrontFlip", 1030); ("FrontJump", 1031); ("FrontPounce", 1032);
     ("LeftFlip", 1042); ("RightFlip", 1043); ("BackFlip", 1044);
     ("Handstand", 1301)].

(** A transport that answers every request at once with the same outcome. *)
Definition always (o : outcome) : transport := fun _ _ => Reply 0 o.

(** ** [examples/testing/basic_movement_test.py] *)

Module basic_movement_test.

Inductive priority : Type := High | Medium.

Inductive category : Type := stance | safety | transition | locomotion.

#[global] Instance category_eq_dec : EqDecision category.
Proof. solve_decision. Defined.

(** An entry of [BASIC_MOVEMENTS]; its ["description"] is only logged and
    copied. *)
Record movement : Type := {
  id : Z;
  movement_priority : priority;
  movement_category : category
}.

Definition BASIC_MOVEMENTS : gmap string movement :=
  list_to_map
    [("Damp", Build_movement 1001 High stance);
     ("BalanceStand", Build_movement 1002 High stance);
     ("StopMove", Build_movement 1003 High safety);
     ("StandUp", Build_movement 1004 High transition);
     ("RecoveryStand", Build_movement 1006 High safety);
     ("Move", Build_movement 1008 High locomotion);
     ("StandDown", Build_movement 1005 Medium transition);
     ("Sit", Build_movement 1009 Medium transition);
     ("RiseSit", Build_movement 1010 Medium transition)].

(** The fields of the tester that the methods below read: [self.conn], the
    driver connection of the robot, and [self.robot]. *)
Record BasicMovementTester : Type := {
  conn : option driver_connection;
  robot : option Robot
}.

(** [self.robot] holding the robot [r]. *)
Definition with_robot (r : Robot) (t : BasicMovementTester)
  : BasicMovementTester :=
  {| conn := conn t; robot := Some r |}.

(** [BasicMovementTester.emergency_stop]: it takes no argument and returns
    nothing; [self.robot and self.robot.motion] is true when both are set. *)
Definition emergency_stop (SPORT_CMD : gmap string Z)
  : coro BasicMovementTester unit :=
  try_except
    (Load (fun self =>
       match robot self with
       | Some r =>
           if bool_decide (is_Some (motion r)) then
             through robot with_robot
               (through motion with_motion (motion.stop SPORT_CMD));;
             Ret tt
           else Ret tt
       | None => Ret tt
       end))
    (fun e => Ret tt).

(** The four values of [result["status"]]: the initial circle, the check
    mark, the cross and the no-entry sign. *)
Inductive status : Type := untested | accepted | failed | blocked.

(** Entries of [result["notes"]]: fixed texts and the two formatted ones,
    [f"Error {status_code}: {error_msg}"] and [f"Exception: {error_msg}"]. *)
Inductive note : Type :=
  | Note (text : string)
  | ErrorNote (status_code : Z) (error_msg : string)
  | ExceptionNote (e : exn).

(** The [result] dictionary (its ["timestamp"] is the wall-clock time of
    the call and is left out). *)
Record test_result : Type := {
  command : string;
  result_api_id : Z;
  result_priority : priority;
  result_category : category;
  result_status : status;
  attempts : Z;
  error_codes : list Z;
  notes : list note
}.

Definition set_status (st : status) (r : test_result) : test_result :=
  {| command := command r; result_api_id := result_api_id r;
     result_priority := result_priority r;
     result_category := result_category r;
     result_status := st; attempts := attempts r;
     error_codes := error_codes r; notes := notes r |}.

Definition add_attempt (r : test_result) : test_result :=
  {| command := command r; result_api_id := result_api_id r;
     result_priority := result_priority r;
     result_category := result_category r;
     result_status := result_status r; attempts := attempts r + 1;
     error_codes := error_codes r; notes := notes r |}.

Definition append_error_code (code : Z) (r : test_result) : test_result :=
  {| command := command r; result_api_id := result_api_id r;
     result_priority := result_priority r;
     result_category := result_category r;
     result_status := result_status r; attempts := attempts r;
     error_codes := error_codes r ++ [code]; notes := notes r |}.

Definition append_note (n : note) (r : test_result) : test_result :=
  {| command := command r; result_api_id := result_api_id r;
     result_priority := result_priority r;
     result_category := result_category r;
     result_status := result_status r; attempts := attempts r;
     error_codes := error_codes r; notes := notes r ++ [n] |}.

(** [execution_times.get(category, 2)]. *)
Definition execution_time (c : category) : Q :=
  match c with
  | stance => 2
  | safety => 1
  | transition => 4
  | locomotion => 3
  end.

Definition _interpret_error_code (code : Z) : string :=
  if code =? 3203 then
    "Command not available in current motion mode (MCF mode limitation)"
  else if code =? 7002 then "AI mode not available in current firmware"
  else if code =? 7004 then "Motion mode switching restriction"
  else if code =? 3001 then "Robot not in correct state for this command"
  else if code =? 3002 then "Invalid command parameters"
  else if code =? 3004 then "Command execution timeout"
  else if code =? 3005 then "Command rejected - robot busy"
  else "Unknown error".

(** [await self.conn.datachannel.pub_sub.publish_request_new(...)]. *)
Definition self_conn_publish (rq : request)
  : coro BasicMovementTester (option Z) :=
  Load (fun self =>
    match conn self with
    | Some _ => publish_request_new rq
    | None => Throw (AttributeError "NoneType")
    end).

(** One pass through the body of [for attempt in range(max_attempts)]; the
    boolean tells whether the pass ended in [break]. Everything that can
    raise inside the [try] precedes the first update of [result], so the
    handler sees [result] as the pass found it. *)
Definition attempt (info : movement) (parameters : option pydict)
    (result : test_result)
  : coro BasicMovementTester (test_result * bool) :=
  let result := add_attempt result in
  try_except
    (response ← self_conn_publish
       (if motion.truthy parameters
        then Publish SPORT_MOD (id info) parameters
        else Publish SPORT_MOD (id info) None);
     status_code ← status_code response;
     if status_code =? 0 then
       let result :=
         append_note (Note "Command accepted by robot")
           (set_status accepted result) in
       sleep (execution_time (movement_category info));;
       (if bool_decide (movement_category info ∈ [transition; safety])
        then sleep 2 else Ret tt);;
       Ret (result, true)
     else
       let result :=
         append_note
           (ErrorNote status_code (_interpret_error_code status_code))
           (append_error_code status_code result) in
       if bool_decide (status_code ∈ [3203; 7002; 7004]) then
         Ret (append_note
                (Note "Firmware limitation - command not available")
                (set_status failed result), true)
       else Ret (result, false))
    (fun e => Ret (append_note (ExceptionNote e) result, false)).

Fixpoint attempt_loop (remaining : nat) (info : movement)
    (parameters : option pydict) (result : test_result)
  : coro BasicMovementTester test_result :=
  match remaining with
  | O => Ret result
  | S remaining' =>
      '(result, break) ← attempt info parameters result;
      if break : bool then Ret result
      else attempt_loop remaining' info parameters result
  end.

Definition test_basic_movement (command_name : string)
    (parameters : option pydict) (max_attempts : Z)
  : coro BasicMovementTester test_result :=
  match BASIC_MOVEMENTS !! command_name with
  | None => Throw (KeyError command_name)
  | Some command_info =>
      let result :=
        {| command := command_name;
           result_api_id := id command_info;
           result_priority := movement_priority command_info;
           result_category := movement_category command_info;
           result_status := untested;
           attempts := 0;
           error_codes := [];
           notes := [] |} in
      if bool_decide (command_name = "Damp") then
        Ret (append_note
               (Note "Use BalanceStand or RecoveryStand for safe stabilization")
            (append_note
               (Note "Damp reduces leg stiffness causing immediate collapse")
            (append_note
               (Note "Command blocked by ultra-safe protection system")
            (set_status blocked result))))
      else
        result ← attempt_loop (Z.to_nat max_attempts) command_info
                   parameters result;
        let result :=
          match result_status result with
          | untested =>
              append_note (Note "Command failed after all attempts")
                (set_status failed result)
          | _ => result
          end in
        sleep 1;;
        Ret result
  end.

End basic_movement_test.

(** ** More of [sparky/core/motion.py]: movement patterns *)

Module motion_patterns.
Section WithDriverConstants.

Variable SPORT_CMD : gmap string Z.

(** [a > b] on numbers. *)
Definition gt (a b : Q) : bool := negb (Qle_bool a b).

Definition _get_expected_direction (x y z : Q) : string :=
  if gt (Qabs x) (Qabs y) && gt (Qabs x) (Qabs z) then
    if gt x 0 then "forward" else "backward"
  else if gt (Qabs y) (Qabs x) && gt (Qabs y) (Qabs z) then
    if gt y 0 then "left" else "right"
  else if gt (Qabs z) (Qabs x) && gt (Qabs z) (Qabs y) then
    if gt z 0 then "turn-left" else "turn-right"
  else "unknown".

(** [walk_square]: a side is a move of 2 s; after each accepted move the
    robot is stopped, and between two sides the method sleeps 1 s. The
    results of the stops are not looked at. *)
Definition walk_square (side_length : Q) (verify : bool)
  : coro MotionController bool :=
  try_except
    (ok ← motion.move_forward SPORT_CMD side_length 2 verify;
     if negb ok then Ret false else
     motion.stop SPORT_CMD;;
     sleep 1;;
     ok ← motion.move_right SPORT_CMD side_length 2 verify;
     if negb ok then Ret false else
     motion.stop SPORT_CMD;;
     sleep 1;;
     ok ← motion.move_backward SPORT_CMD side_length 2 verify;
     if negb ok then Ret false else
     motion.stop SPORT_CMD;;
     sleep 1;;
     ok ← motion.move_left SPORT_CMD side_length 2 verify;
     if negb ok then Ret false else
     motion.stop SPORT_CMD;;
     Ret true)
    (fun e => Ret false).

Definition spin_360 (direction : string) (verify : bool)
  : coro MotionController bool :=
  try_except
    (success ←
       (if bool_decide (PyStr.lower direction = "right")
        then motion.turn_right SPORT_CMD 0.5 6 verify
        else motion.turn_left SPORT_CMD 0.5 6 verify);
     motion.stop SPORT_CMD;;
     Ret success)
    (fun e => Ret false).

Definition handstand (enable verify : bool) : coro MotionController bool :=
  try_except
    (motion.execute_sport_command SPORT_CMD "StandOut"
       (Some [("data", PyBool enable)]) verify)
    (fun e => Ret false).

(** The six acrobatic methods; each passes only [verify] on. *)
Definition front_flip (verify : bool) : coro MotionController bool :=
  try_except
    (motion.execute_sport_command SPORT_CMD "FrontFlip" None verify)
    (fun e => Ret false).

Definition back_flip (verify : bool) : coro MotionController bool :=
  try_except
    (motion.execute_sport_command SPORT_CMD "BackFlip" None verify)
    (fun e => Ret false).

Definition left_flip (verify : bool) : coro MotionController bool :=
  try_except
    (motion.execute_sport_command SPORT_CMD "LeftFlip" None verify)
    (fun e => Ret false).

Definition right_flip (verify : bool) : coro MotionController bool :=
  try_except
    (motion.execute_sport_command SPORT_CMD "RightFlip" None verify)
    (fun e => Ret false).

Definition front_jump (verify : bool) : coro MotionController bool :=
  try_except
    (motion.execute_sport_command SPORT_CMD "FrontJump" None verify)
    (fun e => Ret false).

Definition front_pounce (verify : bool) : coro MotionController bool :=
  try_except
    (motion.execute_sport_command SPORT_CMD "FrontPounce" None verify)
    (fun e => Ret false).

(** [availability[command] = value] on a dictionary kept in insertion
    order. *)
Fixpoint dict_set {V} (key : string) (value : V) (d : list (string * V))
  : list (string * V) :=
  match d with
  | [] => [(key, value)]
  | (k, v) :: d' =>
      if bool_decide (k = key) then (k, value) :: d'
      else (k, v) :: dict_set key value d'
  end.

Definition advanced_commands : list string :=
  ["FrontFlip"; "BackFlip"; "LeftFlip"; "RightFlip";
   "FrontJump"; "FrontPounce"; "Handstand"].

(** The body of [for command in advanced_commands]. *)
Fixpoint availability_loop (commands : list string)
    (availability : list (string * bool))
  : coro MotionController (list (string * bool)) :=
  match commands with
  | [] => Ret availability
  | command :: rest =>
      availability ←
        try_except
          (api ← motion.SPORT_CMD_item SPORT_CMD command;
           response ← publish_request_new (Publish SPORT_MOD api None);
           code ← status_code response;
           if code =? 0 then Ret (dict_set command true availability)
           else Ret (dict_set command false availability))
          (fun e => Ret (dict_set command false availability));
      sleep 0.5;;
      availability_loop rest availability
  end.

Definition test_advanced_movement_availability
  : coro MotionController (list (string * bool)) :=
  availability_loop advanced_commands [].

End WithDriverConstants.
End motion_patterns.

(** ** More of [sparky/robot.py] *)

Module robot_patterns.
Section WithDriverConstants.

Variable SPORT_CMD : gmap string Z.

(** [Robot.walk_square] and [Robot.spin_360]; the controller's methods are
    called with their default [verify=True]. *)
Definition walk_square (side_length : Q) : coro Robot bool :=
  Load (fun self =>
    if negb (bool_decide (is_Some (motion self))) then Ret false
    else
      try_except
        (robot.self_motion
           (motion_patterns.walk_square SPORT_CMD side_length true))
        (fun e => Ret false)).

Definition spin_360 (direction : string) : coro Robot bool :=
  Load (fun self =>
    if negb (bool_decide (is_Some (motion self))) then Ret false
    else
      try_except
        (robot.self_motion (motion_patterns.spin_360 SPORT_CMD direction true))
        (fun e => Ret false)).

(** [Robot.disconnect]. The streaming components and the connection object
    are not among the sources: [stop_data_stream] stands for
    [self.stop_data_stream()] and [connection_disconnect] for what awaiting
    [self.connection.disconnect()] gives. *)
Definition disconnect (stop_data_stream : coro Robot unit)
    (connection_disconnect : returned bool) : coro Robot bool :=
  try_except
    (Load (fun self =>
       (if _data_streaming_active self then stop_data_stream else Ret tt);;
       Load (fun self =>
         match connection self with
         | Some _ =>
             success ←
               match connection_disconnect with
               | Ok b => Ret b
               | Exc e => Throw e
               end;
             Load (fun self =>
               Store {| connection := None;
                        motion := None;
                        _data_streaming_active :=
                          _data_streaming_active self |}
                     (Ret success))
         | None => Ret true
         end)))
    (fun e => Ret false).


(** [Robot.is_moving]. The analytics engine is not among the sources:
    [analytics] is [None] when [self.analytics_engine] is not set and
    otherwise what awaiting [self.analytics_engine.is_robot_moving()]
    gives. The fallback reads the ["is_moving"] entry of the dictionary
    that [MotionController.get_status] builds, which is [self.is_moving]
    of the controller. *)
Definition is_moving (analytics : option (returned bool)) : coro Robot bool :=
  Load (fun self =>
    let fallback :=
      match motion self with
      | Some c => Ret (is_moving c)
      | None => Ret false
      end in
    match analytics with
    | Some (Ok moving) => Ret moving
    | Some (Exc e) => fallback
    | None => fallback
    end).

End WithDriverConstants.
End robot_patterns.

(** ** More of [examples/testing/basic_movement_test.py]: the test runs *)

Module basic_movement_runs.

#[global] Instance priority_eq_dec :
  EqDecision basic_movement_test.priority.
Proof. solve_decision. Defined.

(** The tester with the fields that the runs also use: [self.test_results],
    a dictionary kept in insertion order, and [self.motion_mode]. *)
Record Tester : Type := {
  tester : basic_movement_test.BasicMovementTester;
  test_results : list (string * basic_movement_test.test_result);
  motion_mode : option string
}.

Definition with_tester (t : basic_movement_test.BasicMovementTester)
    (s : Tester) : Tester :=
  {| tester := t; test_results := test_results s;
     motion_mode := motion_mode s |}.

(** A method of the claims' part of the tester, run on the whole tester. *)
Definition self_tester {A}
    (method : coro basic_movement_test.BasicMovementTester A)
  : coro Tester A :=
  through (fun s => Some (tester s)) with_tester method.

(** [self.test_results[command] = result]. *)
Definition set_test_result (command : string)
    (result : basic_movement_test.test_result) : coro Tester unit :=
  Load (fun s =>
    Store {| tester := tester s;
             test_results :=
               motion_patterns.dict_set command result (test_results s);
             motion_mode := motion_mode s |}
          (Ret tt)).

(** [command in [cmd for cmd, info in self.BASIC_MOVEMENTS.items()
    if info["priority"] == p]]. *)
Definition has_priority (p : basic_movement_test.priority) (command : string)
  : bool :=
  match basic_movement_test.BASIC_MOVEMENTS !! command with
  | Some info => bool_decide (basic_movement_test.movement_priority info = p)
  | None => false
  end.

(** The body of [for command in test_order] in [run_high_priority_tests];
    [test_basic_movement] is called with its default [max_attempts=1]. *)
Fixpoint high_priority_loop (test_order : list string)
    (results : list (string * basic_movement_test.test_result))
  : coro Tester (list (string * basic_movement_test.test_result)) :=
  match test_order with
  | [] => Ret results
  | command :: rest =>
      if has_priority basic_movement_test.High command then
        result ←
          (if bool_decide (command = "Move") then
             self_tester
               (basic_movement_test.test_basic_movement command
                  (Some [("x", PyNum 0.2); ("y", PyNum 0); ("z", PyNum 0)]) 1)
           else
             self_tester
               (basic_movement_test.test_basic_movement command None 1));
        let results := motion_patterns.dict_set command result results in
        set_test_result command result;;
        sleep 1;;
        high_priority_loop rest results
      else high_priority_loop rest results
  end.

Definition run_high_priority_tests
  : coro Tester (list (string * basic_movement_test.test_result)) :=
  high_priority_loop
    ["BalanceStand"; "StopMove"; "RecoveryStand"; "StandUp"; "Move"] [].

(** The body of [for command in test_order] in
    [run_medium_priority_tests]. *)
Fixpoint medium_priority_loop (test_order : list string)
    (results : list (string * basic_movement_test.test_result))
  : coro Tester (list (string * basic_movement_test.test_result)) :=
  match test_order with
  | [] => Ret results
  | command :: rest =>
      if has_priority basic_movement_test.Medium command then
        result ←
          self_tester (basic_movement_test.test_basic_movement command None 1);
        let results := motion_patterns.dict_set command result results in
        set_test_result command result;;
        sleep 2;;
        medium_priority_loop rest results
      else medium_priority_loop rest results
  end.

Definition run_medium_priority_tests
  : coro Tester (list (string * basic_movement_test.test_result)) :=
  medium_priority_loop ["Sit"; "RiseSit"; "StandDown"] [].

Section WithDriverConstants.

Variable SPORT_CMD : gmap string Z.

(** [get_motion_mode] reads the mode out of the body of the response, which
    replies do not carry here; the sequence is given it as a coroutine. *)
Variable get_motion_mode : coro Tester (option string).

(** [safe_preparation_sequence]. In the inner [try], the attribute chain
    [self.conn.datachannel...] is evaluated before the argument
    [SPORT_CMD["BalanceStand"]]; the inner handler returns [False] from the
    method, which the boolean [proceed] stands for. *)
Definition safe_preparation_sequence : coro Tester bool :=
  try_except
    (mode ← get_motion_mode;
     proceed ←
       try_except
         (Load (fun s =>
            match basic_movement_test.conn (tester s) with
            | Some _ => Ret tt
            | None => Throw (AttributeError "NoneType")
            end);;
          api ← motion.SPORT_CMD_item SPORT_CMD "BalanceStand";
          response ← publish_request_new (Publish SPORT_MOD api None);
          code ← status_code response;
          (if code =? 0 then sleep 2 else Ret tt);;
          Ret true)
         (fun e => Ret false);
     if negb proceed then Ret false else
     sleep 3;;
     Ret true)
    (fun e => Ret false).

End WithDriverConstants.
End basic_movement_runs.

(** ** [examples/testing/advanced_movement_test.py] *)

Module advanced_movement_test.

Record AdvancedMovementTester : Type := {
  conn : option driver_connection;
  robot : option Robot;
  motion_mode : option string
}.

Definition with_robot (r : Robot) (t : AdvancedMovementTester)
  : AdvancedMovementTester :=
  {| conn := conn t; robot := Some r; motion_mode := motion_mode t |}.

(** [await self.robot.method(...)]; [self.robot] is [None] before
    [connect]. *)
Definition self_robot {A} (method : coro Robot A)
  : coro AdvancedMovementTester A :=
  Load (fun self =>
    match robot self with
    | Some _ => through robot with_robot method
    | None => Throw (AttributeError "NoneType")
    end).

Section WithDriverConstants.

Variable SPORT_CMD : gmap string Z.

(** [get_motion_mode] reads the body of the response and
    [Robot.test_advanced_movements] is not defined in [robot.py]; the two
    are given to the check as coroutines. *)
Variable get_motion_mode : coro AdvancedMovementTester (option string).
Variable test_advanced_movements
  : coro AdvancedMovementTester (list (string * bool)).

Definition pre_flight_safety_check : coro AdvancedMovementTester bool :=
  try_except
    (mode ← get_motion_mode;
     basic_test ← self_robot (robot.command SPORT_CMD "BalanceStand" true);
     if negb basic_test then Ret false else
     availability ← test_advanced_movements;
     Ret true)
    (fun e => Ret false).

Definition safe_preparation_sequence : coro AdvancedMovementTester bool :=
  try_except
    (ok ← pre_flight_safety_check;
     if negb ok then Ret false else
     self_robot (robot.command SPORT_CMD "BalanceStand" true);;
     sleep 2;;
     self_robot (robot.command SPORT_CMD "StopMove" true);;
     sleep 1;;
     self_robot (robot.command SPORT_CMD "BalanceStand" true);;
     sleep 2;;
     sleep 3;;
     Ret true)
    (fun e => Ret false).

End WithDriverConstants.
End advanced_movement_test.

(** ** Several tasks on one event loop

    [asyncio] runs the tasks of one event loop one at a time and switches
    between them only where a task awaits: a task runs until it suspends
    on the transport or on a sleep, or finishes; it becomes runnable again
    when its reply arrives or its sleep ends. The fields of the robot are
    shared by all tasks. *)
Inductive task (S A : Type) : Type :=
  | Runnable (m : coro S A)
  | AwaitingReply (rq : request) (k : reply -> coro S A)
  | Sleeping (seconds : Q) (k : coro S A)
  | Finished (r : returned A).

Arguments Runnable {S A} m.
Arguments AwaitingReply {S A} rq k.
Arguments Sleeping {S A} seconds k.
Arguments Finished {S A} r.

(** Run a task up to its next suspension point. *)
Fixpoint resume {S A} (m : coro S A) (s : S) : S * task S A :=
  match m with
  | Ret a => (s, Finished (Ok a))
  | Throw e => (s, Finished (Exc e))
  | Load k => resume (k s) s
  | Store s' k => resume k s'
  | Request rq k => (s, AwaitingReply rq k)
  | Sleep d k => (s, Sleeping d k)
  end.

Record event_loop (S A : Type) : Type := {
  shared : S;
  tasks : list (task S A)
}.

Arguments shared {S A} _.
Arguments tasks {S A} _.

(** What happens next: the loop runs the runnable task [i], the reply [r]
    to the request of task [i] arrives, or the sleep of task [i] ends. *)
Inductive turn : Type :=
  | Run (i : nat)
  | Answer (i : nat) (r : reply)
  | Wake (i : nat).

Definition step {S A} (l : event_loop S A) (t : turn) : event_loop S A :=
  match t with
  | Run i =>
      match tasks l !! i with
      | Some (Runnable m) =>
          let '(s', t') := resume m (shared l) in
          {| shared := s'; tasks := <[i := t']> (tasks l) |}
      | _ => l
      end
  | Answer i r =>
      match tasks l !! i with
      | Some (AwaitingReply rq k) =>
          {| shared := shared l; tasks := <[i := Runnable (k r)]> (tasks l) |}
      | _ => l
      end
  | Wake i =>
      match tasks l !! i with
      | Some (Sleeping d k) =>
          {| shared := shared l; tasks := <[i := Runnable k]> (tasks l) |}
      | _ => l
      end
  end.

Definition steps {S A} (l : event_loop S A) (turns : list turn)
  : event_loop S A :=
  foldl step l turns.


(** Tasks submitted together on a robot. *)
Definition submit {S A} (s : S) (calls : list (coro S A)) : event_loop S A :=
  {| shared := s; tasks := Runnable <$> calls |}.

(** ** The emergency channel

    The module [sparky.core.action_queue] and the method
    [Robot.emergency_stop] are used by
    [examples/testing/ultra_safe_queue_test.py] but are not among the
    sources. What the properties need of them is taken from sections 3, 4.2
    and 4.4 of the specification; the Executor's stop primitive is
    [MotionController.stop]. *)
Module emergency_channel.

(** Modelled from the spec: the states of the safety monitor (section 3;
    the module [sparky.core.action_queue] is missing). *)
Inductive SafetyState : Type := Safe | Caution | EmergencyStop | Recovering.

(** Modelled from the spec: the kinds of action (section 3; the module
    [sparky.core.action_queue] is missing). *)
Inductive ActionKind : Type := Movement | Posture | SportCommand | Stop.

#[global] Instance ActionKind_eq_dec : EqDecision ActionKind.
Proof. solve_decision. Defined.

(** Modelled from the spec: the priority tiers (section 3; the module
    [sparky.core.action_queue] is missing). *)
Inductive ActionPriority : Type := Emergency | High | Normal | Low.

(** Modelled from the spec: the states of an action (section 3; the module
    [sparky.core.action_queue] is missing). *)
Inductive ActionState : Type :=
  Pending | Running | Completed | Failed | Cancelled.

(** Modelled from the spec: an action (section 3; the module
    [sparky.core.action_queue] is missing). *)
Record Action : Type := {
  id : nat;
  kind : ActionKind;
  priority : ActionPriority;
  state : ActionState;
  attempts : nat
}.

(** Modelled from the spec: the bundle of one robot connection (sections 3
    and 9; the module [sparky.core.action_queue] is missing) -- the
    Executor, the safety state and the flag the worker observes, the queue
    of pending actions, the action that is running, the actions retired,
    and the rate limiter's [last_dispatch]. *)
Record Subsystem : Type := {
  executor : MotionController;
  safety_state : SafetyState;
  emergency_flag : bool;
  queue : list Action;
  running : option Action;
  retired : list Action;
  last_dispatch : Q
}.

(** Modelled from the spec: the bundle with its Executor updated (section
    9; the bundle is missing from the sources). *)
Definition with_executor (c : MotionController) (s : Subsystem) : Subsystem :=
  {| executor := c;
     safety_state := safety_state s;
     emergency_flag := emergency_flag s;
     queue := queue s;
     running := running s;
     retired := retired s;
     last_dispatch := last_dispatch s |}.

(** Modelled from the spec: cancelling a pending action (section 3; the
    module [sparky.core.action_queue] is missing). *)
Definition cancel (a : Action) : Action :=
  {| id := id a; kind := kind a; priority := priority a;
     state := Cancelled; attempts := attempts a |}.

(** Modelled from the spec: the state after
    [SafetyMonitor.trigger_emergency] (section 4.2; the module
    [sparky.core.action_queue] is missing) -- the state is [EmergencyStop],
    the flag is set, and the pending actions that are not stops are
    cancelled. *)
Definition emergency (s : Subsystem) : Subsystem :=
  {| executor := executor s;
     safety_state := EmergencyStop;
     emergency_flag := true;
     queue := filter (fun a => kind a = Stop) (queue s);
     running := running s;
     retired :=
       retired s ++ (cancel <$> filter (fun a => kind a <> Stop) (queue s));
     last_dispatch := last_dispatch s |}.

(** Modelled from the spec: [SafetyMonitor.trigger_emergency(reason)]
    (section 4.2; the module [sparky.core.action_queue] is missing). *)
Definition trigger_emergency (reason : string) : coro Subsystem unit :=
  Load (fun s => Store (emergency s) (Ret tt)).

(** Modelled from the spec: the Executor's [send_stop] called on the
    bundle's Executor (section 6; the bundle is missing from the sources,
    the stop primitive is [MotionController.stop]). *)
Definition send_stop (SPORT_CMD : gmap string Z) : coro Subsystem bool :=
  through (fun s => Some (executor s)) with_executor (motion.stop SPORT_CMD).

(** Modelled from the spec: [emergency_stop(reason) -> bool] (section 4.4;
    [Robot.emergency_stop] is missing from the sources) -- it calls the
    Executor's stop primitive and, after issuing the stop, calls
    [trigger_emergency]; its result is that of the stop. *)
Definition emergency_stop (SPORT_CMD : gmap string Z) (reason : string)
  : coro Subsystem bool :=
  stopped ← send_stop SPORT_CMD;
  trigger_emergency reason;;
  Ret stopped.

End emergency_channel.

(** ** Vocabulary of the properties *)

(** The reply carries status code 0. *)
Definition accepts (r : reply) : bool :=
  match result r with
  | Response (Some code) => code =? 0
  | _ => false
  end.

(** The events of a trace that are requests, and their number. *)
Definition requests (tr : trace) : list request :=
  omap (fun ev => match ev with Sent rq _ => Some rq | Slept _ => None end) tr.

(** The payload of a sport command: the parameters are sent only when they
    are a non-empty dictionary. *)
Definition sport_request (api : Z) (parameters : option pydict) : request :=
  Publish SPORT_MOD api (if motion.truthy parameters then parameters else None).

(** The events that [tr'] adds to its prefix [tr]. *)
Definition since (tr tr' : trace) : list event := drop (length tr) tr'.

(** Some request among the events was answered with status code 0. *)
Definition acknowledged (evs : list event) : bool :=
  existsb (fun ev => match ev with Sent _ r => accepts r | Slept _ => false end)
    evs.


(** The status codes after which [test_basic_movement] gives up at once. *)
Definition firmware_codes : list Z := [3203; 7002; 7004].

(** *** Time

    Time passes while the caller is suspended: for the latency of a request
    and for the duration of a sleep ([asyncio.sleep] returns at once when
    its argument is not positive). *)
Definition nonneg (q : Q) : Q := if Qle_bool 0 q then q else 0.

Definition waited (evs : list event) : Q :=
  foldr (fun ev acc =>
           match ev with Slept d => nonneg d + acc | Sent _ _ => acc end)%Q
        0%Q evs.

Definition elapsed (evs : list event) : Q :=
  foldr (fun ev acc =>
           match ev with
           | Slept d => nonneg d + acc
           | Sent _ r => nonneg (latency r) + acc
           end)%Q
        0%Q evs.

(** A caller that dispatches sport commands one after the other, awaiting
    each call before it makes the next, and collects the results. *)
Fixpoint dispatch_all (SPORT_CMD : gmap string Z)
    (commands : list (string * option pydict))
  : coro MotionController (list bool) :=
  match commands with
  | [] => Ret []
  | (command_name, parameters) :: rest =>
      ok ← motion.execute_sport_command SPORT_CMD command_name parameters true;
      oks ← dispatch_all SPORT_CMD rest;
      Ret (ok :: oks)
  end.

(** The number of [True] results. *)
Fixpoint count_true (oks : list bool) : nat :=
  match oks with
  | [] => 0
  | ok :: oks => (if ok then 1 else 0) + count_true oks
  end.

(** The controller call that [Robot.move] makes for a direction, if any. *)
Definition move_call (SPORT_CMD : gmap string Z) (direction : string)
    (speed duration : Q) (verify : bool)
  : option (coro MotionController bool) :=
  let direction := PyStr.replace "_" "-" (PyStr.lower direction) in
  if bool_decide (direction = "forward") then
    Some (motion.move_forward SPORT_CMD speed duration verify)
  else if bool_decide (direction = "backward") then
    Some (motion.move_backward SPORT_CMD speed duration verify)
  else if bool_decide (direction = "left") then
    Some (motion.move_left SPORT_CMD speed duration verify)
  else if bool_decide (direction = "right") then
    Some (motion.move_right SPORT_CMD speed duration verify)
  else if bool_decide (direction ∈ ["turn-left"; "turnleft"]) then
    Some (motion.turn_left SPORT_CMD speed duration verify)
  else if bool_decide (direction ∈ ["turn-right"; "turnright"]) then
    Some (motion.turn_right SPORT_CMD speed duration verify)
  else if bool_decide (direction = "stop") then
    Some (motion.stop SPORT_CMD)
  else None.

(** The sleeps that follow an accepted command in [test_basic_movement]. *)
Definition settle (info : basic_movement_test.movement) : list event :=
  Slept (basic_movement_test.execution_time
           (basic_movement_test.movement_category info)) ::
  (if bool_decide (basic_movement_test.movement_category info
                   ∈ [basic_movement_test.transition;
                      basic_movement_test.safety])
   then [Slept 2] else []).


(** The turns by which the event loop takes a single task, at index 0, from
    its first suspension to its end, when the transport [net] answers. *)
Fixpoint schedule_of {S A} (m : coro S A) (net : transport) (s : S)
    (tr : trace) : list turn :=
  match m with
  | Ret _ | Throw _ => []
  | Load k => schedule_of (k s) net s tr
  | Store s' k => schedule_of k net s' tr
  | Request rq k =>
      let r := net tr rq in
      Answer 0 r :: Run 0 :: schedule_of (k r) net s (tr ++ [Sent rq r])
  | Sleep d k => Wake 0 :: Run 0 :: schedule_of k net s (tr ++ [Slept d])
  end.

(** A well-behaved field: reading after writing gives what was written,
    writing what was read changes nothing, the last write wins. *)
Record field_laws {S T} (get : S -> option T) (set : T -> S -> S) : Prop := {
  get_set : forall t s, get (set t s) = Some t;
  set_get : forall t s, get s = Some t -> set t s = s;
  set_set : forall t t' s, set t' (set t s) = set t' s
}.

(** *** More vocabulary: strings, answers, calls *)



(** The normal form of a direction in [Robot.move]. *)
Definition normalised (direction : string) : string :=
  PyStr.replace "_" "-" (PyStr.lower direction).

(** The directions that [Robot.move] knows, in normal form. *)
Definition known_directions : list string :=
  ["forward"; "backward"; "left"; "right"; "turn-left"; "turnleft";
   "turn-right"; "turnright"; "stop"].

(** The requests among the events, each with whether its reply carried
    status code 0. *)
Definition answers (evs : list event) : list (request * bool) :=
  omap (fun ev =>
          match ev with
          | Sent rq r => Some (rq, accepts r)
          | Slept _ => None
          end) evs.

(** A request that carries a ["parameter"] entry; among the requests of the
    movement patterns these are the moves, the stops carry none. *)
Definition has_parameter (a : request * bool) : bool :=
  match parameter a.1 with Some _ => true | None => false end.

(** The request of [move(x, y, z)] and of [stop()], for the api ids that the
    table gives to ["Move"] and ["StopMove"]. *)
Definition move_request (mv : Z) (x y z : Q) : request :=
  Publish SPORT_MOD mv (Some [("x", PyNum x); ("y", PyNum y); ("z", PyNum z)]).

Definition stop_request (st : Z) : request := Publish SPORT_MOD st None.

(** The requests of a complete square: forward, right, backward, left, each
    followed by a stop. *)
Definition square (mv st : Z) (side_length : Q) : list request :=
  [move_request mv side_length 0 0; stop_request st;
   move_request mv 0 (- side_length) 0; stop_request st;
   move_request mv (- side_length) 0 0; stop_request st;
   move_request mv 0 side_length 0; stop_request st].

(** Whether the controller counts as moving after the events: a move that
    was acknowledged sets the flag, a stop that was acknowledged clears it,
    a request that was not acknowledged leaves it. *)
Definition moving_after (evs : list event) (moving : bool) : bool :=
  foldl (fun (m : bool) (a : request * bool) =>
           if a.2 then has_parameter a else m)
        moving (answers evs).

(** The durations slept, in order. *)
Definition sleeps (evs : list event) : list Q :=
  omap (fun ev => match ev with Slept d => Some d | Sent _ _ => None end) evs.

(** The request that probes a command of the table, if the table has it. *)
Definition probe (SPORT_CMD : gmap string Z) (name : string) : option request :=
  (fun api => Publish SPORT_MOD api None) <$> SPORT_CMD !! name.

(** *** Callers of the controller *)

(** A call of one of the controller's methods, with its arguments. *)
Inductive call : Type :=
  | SwitchMotionMode (mode : string)
  | Move (x y z duration : Q) (verify : bool)
  | Stop
  | ExecuteSportCommand (command_name : string) (parameters : option pydict)
      (verify : bool)
  | WalkSquare (side_length : Q) (verify : bool)
  | Spin360 (direction : string) (verify : bool)
  | Handstand (enable verify : bool)
  | FrontFlip (verify : bool)
  | BackFlip (verify : bool)
  | LeftFlip (verify : bool)
  | RightFlip (verify : bool)
  | FrontJump (verify : bool)
  | FrontPounce (verify : bool)
  | TestAdvancedMovementAvailability.

(** The call awaited, its result dropped. *)
Definition perform (SPORT_CMD : gmap string Z) (c : call)
  : coro MotionController unit :=
  match c with
  | SwitchMotionMode mode => motion.switch_motion_mode mode;; Ret tt
  | Move x y z duration verify =>
      motion.move SPORT_CMD x y z duration verify;; Ret tt
  | Stop => motion.stop SPORT_CMD;; Ret tt
  | ExecuteSportCommand command_name parameters verify =>
      motion.execute_sport_command SPORT_CMD command_name parameters verify;;
      Ret tt
  | WalkSquare side_length verify =>
      motion_patterns.walk_square SPORT_CMD side_length verify;; Ret tt
  | Spin360 direction verify =>
      motion_patterns.spin_360 SPORT_CMD direction verify;; Ret tt
  | Handstand enable verify =>
      motion_patterns.handstand SPORT_CMD enable verify;; Ret tt
  | FrontFlip verify => motion_patterns.front_flip SPORT_CMD verify;; Ret tt
  | BackFlip verify => motion_patterns.back_flip SPORT_CMD verify;; Ret tt
  | LeftFlip verify => motion_patterns.left_flip SPORT_CMD verify;; Ret tt
  | RightFlip verify => motion_patterns.right_flip SPORT_CMD verify;; Ret tt
  | FrontJump verify => motion_patterns.front_jump SPORT_CMD verify;; Ret tt
  | FrontPounce verify =>
      motion_patterns.front_pounce SPORT_CMD verify;; Ret tt
  | TestAdvancedMovementAvailability =>
      motion_patterns.test_advanced_movement_availability SPORT_CMD;; Ret tt
  end.

(** A caller that makes the calls one after the other. *)
Fixpoint perform_all (SPORT_CMD : gmap string Z) (calls : list call)
  : coro MotionController unit :=
  match calls with
  | [] => Ret tt
  | c :: rest => perform SPORT_CMD c;; perform_all SPORT_CMD rest
  end.

(** The request of [switch_motion_mode(mode)]. *)
Definition switch_request (mode : string) : request :=
  Publish MOTION_SWITCHER 1002 (Some [("name", PyStr mode)]).

(** What the events [evs] may have done to a controller [c], now [c']: the
    connection is the same; nothing at all has changed unless a request was
    acknowledged; and the mode is the old one or one whose switch request
    was acknowledged. *)
Definition kept (c c' : MotionController) (evs : list event) : Prop :=
  conn c' = conn c /\
  (acknowledged evs = false -> c' = c) /\
  (current_mode c' = current_mode c \/
   exists mode, current_mode c' = Some mode /\
                (switch_request mode, true) ∈ answers evs).

(** A coroutine on the controller that extends the trace and keeps the
    controller in the sense of [kept], whatever the transport answers. *)
Definition keeps {A} (m : coro MotionController A) : Prop :=
  forall net c tr,
    exists res c' evs, run m net c tr = (res, c', tr ++ evs) /\ kept c c' evs.

(** *** The priority runs *)

(** [d[kv.1] = kv.2]. *)
Definition set_entry {V} (d : list (string * V)) (kv : string * V)
  : list (string * V) :=
  motion_patterns.dict_set kv.1 kv.2 d.

(** The parameters that [run_high_priority_tests] passes for a command. *)
Definition high_priority_parameters (command : string) : option pydict :=
  if bool_decide (command = "Move")
  then Some [("x", PyNum 0.2); ("y", PyNum 0); ("z", PyNum 0)]
  else None.

(** The request that [test_basic_movement] makes for a command of
    [BASIC_MOVEMENTS]. *)
Definition test_request (parameters : string -> option pydict)
    (command : string) : option request :=
  (fun info => sport_request (basic_movement_test.id info) (parameters command))
    <$> basic_movement_test.BASIC_MOVEMENTS !! command.

(** What every entry of the results of a run looks like. *)
Definition tested_once (kv : string * basic_movement_test.test_result) : Prop :=
  basic_movement_test.command kv.2 = kv.1 /\
  basic_movement_test.attempts kv.2 = 1 /\
  basic_movement_test.result_status kv.2
    ∈ [basic_movement_test.accepted; basic_movement_test.failed].

(** * Properties *)

(** ** The embedding on concrete calls *)

Example lower_replace_turn_left :
  PyStr.replace "_" "-" (PyStr.lower "Turn_Left") = "turn-left".
Proof. reflexivity. Qed.

Example title_dance : PyStr.title "dance1" = "Dance1".
Proof. reflexivity. Qed.

Example title_restarts_after_a_digit : PyStr.title "dance1a" = "Dance1A".
Proof. reflexivity. Qed.

Example title_standup : PyStr.title "standup" = "Standup".
Proof. reflexivity. Qed.

Example move_backward_accepted :
  run (robot.move go2_SPORT_CMD "Backward" 0.5 2 true)
      (always (Response (Some 0))) (robot.connected 7%nat) []
  = (Ok true,
     with_motion (with_is_moving true (motion.__init__ 7%nat))
       (robot.connected 7%nat),
     [Sent (Publish SPORT_MOD 1008
              (Some [("x", PyNum (- 0.5)); ("y", PyNum 0); ("z", PyNum 0)]))
           (Reply 0 (Response (Some 0)));
      Slept 2]).
Proof. reflexivity. Qed.

Example sit_rejected :
  run (robot.command go2_SPORT_CMD "sit" true)
      (always (Response (Some 3203))) (robot.connected 7%nat) []
  = (Ok false, robot.connected 7%nat,
     [Sent (Publish SPORT_MOD 1009 None) (Reply 0 (Response (Some 3203)))]).
Proof. reflexivity. Qed.

Example sit_transport_raises :
  let timeout := Exception "TimeoutError" "no reply" in
  run (robot.command go2_SPORT_CMD "sit" true)
      (always (Raises timeout)) (robot.connected 7%nat) []
  = (Ok false, robot.connected 7%nat,
     [Sent (Publish SPORT_MOD 1009 None) (Reply 0 (Raises timeout))]).
Proof. reflexivity. Qed.

(** [Robot.stand_up] asks for ["standup".title()], which is ["Standup"]; the
    table has ["StandUp"], so nothing is sent. *)
Example stand_up_is_not_found :
  go2_SPORT_CMD !! "StandUp" = Some 1004 /\
  run (robot.stand_up go2_SPORT_CMD) (always (Response (Some 0)))
      (robot.connected 7%nat) []
  = (Ok false, robot.connected 7%nat, []).
Proof. split; reflexivity. Qed.

Example sit_retried_three_times :
  let t := basic_movement_test.Build_BasicMovementTester (Some 7%nat) None in
  exists res tr,
    run (basic_movement_test.test_basic_movement "Sit" None 3)
        (always (Response (Some 3005))) t [] = (Ok res, t, tr) /\
    basic_movement_test.result_status res = basic_movement_test.failed /\
    basic_movement_test.attempts res = 3 /\
    basic_movement_test.error_codes res = [3005; 3005; 3005] /\
    length (requests tr) = 3%nat.
Proof. eexists _, _. split; [vm_compute; reflexivity|done]. Qed.

Example unknown_test_command_raises :
  let t := basic_movement_test.Build_BasicMovementTester (Some 7%nat) None in
  run (basic_movement_test.test_basic_movement "Hello" None 1)
      (always (Response (Some 0))) t []
  = (Exc (KeyError "Hello"), t, []).
Proof. reflexivity. Qed.

(** ** Execution of the coroutine combinators *)

Lemma run_bind {S A B} (m : coro S A) (f : A -> coro S B) net s tr :
  run (m ≫= f) net s tr =
  match run m net s tr with
  | (Ok a, s', tr') => run (f a) net s' tr'
  | (Exc e, s', tr') => (Exc e, s', tr')
  end.
Proof.
  unfold mbind, coro_mbind.
  revert s tr; induction m as [a|e|k IH|s0 k IH|rq k IH|d k IH];
    intros s tr; simpl; auto.
Qed.

Lemma run_try_except {S A} (body : coro S A) handler net s tr :
  run (try_except body handler) net s tr =
  match run body net s tr with
  | (Ok a, s', tr') => (Ok a, s', tr')
  | (Exc e, s', tr') => run (handler e) net s' tr'
  end.
Proof.
  revert s tr; induction body as [a|e|k IH|s0 k IH|rq k IH|d k IH];
    intros s tr; simpl; auto.
Qed.

Lemma run_through {S T A} (get : S -> option T) set (m : coro T A)
    net s t tr :
  field_laws get set ->
  get s = Some t ->
  run (through get set m) net s tr =
  let '(r, t', tr') := run m net t tr in (r, set t' s, tr').
Proof.
  intros L. revert s t tr.
  induction m as [a|e|k IH|t0 k IH|rq k IH|d k IH]; intros s t tr Hs; simpl.
  - by rewrite (set_get _ _ L).
  - by rewrite (set_get _ _ L).
  - rewrite Hs. by apply IH.
  - rewrite (IH (set t0 s) t0 tr) by apply (get_set _ _ L).
    destruct (run k net t0 tr) as [[r t'] tr'].
    by rewrite (set_set _ _ L).
  - by apply IH.
  - by apply IH.
Qed.

(** ** What each controller method does, case by case *)

Section Controller.

Variable SPORT_CMD : gmap string Z.
Variable net : transport.

Lemma run_switch_motion_mode mode c tr :
  run (motion.switch_motion_mode mode) net c tr =
  if motion.unsupported_mode mode then (Ok false, c, tr)
  else
    let rq := Publish MOTION_SWITCHER 1002 (Some [("name", PyStr mode)]) in
    let r := net tr rq in
    if accepts r
    then (Ok true, with_current_mode mode c, tr ++ [Sent rq r] ++ [Slept 5])
    else (Ok false, c, tr ++ [Sent rq r]).
Proof.
  unfold motion.switch_motion_mode, accepts.
  destruct (motion.unsupported_mode mode); [done|].
  simpl. destruct (net tr _) as [lat [e|[code|]]]; simpl; try done.
  destruct (code =? 0); simpl; [|done].
  by rewrite <- app_assoc.
Qed.

Lemma run_move x y z duration verify c tr :
  run (motion.move SPORT_CMD x y z duration verify) net c tr =
  match SPORT_CMD !! "Move" with
  | None => (Ok false, c, tr)
  | Some api =>
      let rq := Publish SPORT_MOD api
                  (Some [("x", PyNum x); ("y", PyNum y); ("z", PyNum z)]) in
      let r := net tr rq in
      if accepts r
      then (Ok true, with_is_moving true c,
            tr ++ [Sent rq r] ++ [Slept duration])
      else (Ok false, c, tr ++ [Sent rq r])
  end.
Proof.
  unfold motion.move, motion.SPORT_CMD_item, accepts.
  destruct (SPORT_CMD !! "Move") as [api|]; [|done].
  simpl. destruct (net tr _) as [lat [e|[code|]]]; simpl; try done.
  destruct (code =? 0); simpl; [|done].
  by rewrite <- app_assoc.
Qed.

Lemma run_stop c tr :
  run (motion.stop SPORT_CMD) net c tr =
  match SPORT_CMD !! "StopMove" with
  | None => (Ok false, c, tr)
  | Some api =>
      let rq := Publish SPORT_MOD api None in
      let r := net tr rq in
      if accepts r
      then (Ok true, with_is_moving false c, tr ++ [Sent rq r])
      else (Ok false, c, tr ++ [Sent rq r])
  end.
Proof.
  unfold motion.stop, motion.SPORT_CMD_item, accepts.
  destruct (SPORT_CMD !! "StopMove") as [api|]; [|done].
  simpl. destruct (net tr _) as [lat [e|[code|]]]; simpl; try done.
  by destruct (code =? 0).
Qed.

Lemma run_execute_sport_command command_name parameters verify c tr :
  run (motion.execute_sport_command SPORT_CMD command_name parameters verify)
      net c tr =
  match SPORT_CMD !! command_name with
  | None => (Ok false, c, tr)
  | Some api =>
      let rq := sport_request api parameters in
      let r := net tr rq in
      if accepts r
      then (Ok true, c, tr ++ [Sent rq r] ++ [Slept 2])
      else (Ok false, c, tr ++ [Sent rq r])
  end.
Proof.
  unfold motion.execute_sport_command, motion.SPORT_CMD_item, accepts,
    sport_request.
  destruct (SPORT_CMD !! command_name) as [api|] eqn:E; [|done].
  rewrite bool_decide_eq_false_2 by done.
  destruct (motion.truthy parameters); simpl;
    destruct (net tr _) as [lat [e|[code|]]]; simpl; try done;
    destruct (code =? 0); simpl; try done; by rewrite <- app_assoc.
Qed.

End Controller.

Lemma since_app tr evs : since tr (tr ++ evs) = evs.
Proof. unfold since. by rewrite drop_app_length. Qed.

Lemma since_refl tr : since tr tr = [].
Proof. unfold since. by rewrite drop_all. Qed.

(** ** The robot's methods on a connected robot *)

Section RobotMethods.

Variable SPORT_CMD : gmap string Z.
Variable net : transport.

Lemma motion_field_laws : field_laws motion with_motion.
Proof.
  split.
  - done.
  - intros t [c m d]; simpl; by intros ->.
  - done.
Qed.

Lemma run_self_motion {A} (m : coro MotionController A) r c tr :
  motion r = Some c ->
  run (robot.self_motion m) net r tr =
  let '(res, c', tr') := run m net c tr in (res, with_motion c' r, tr').
Proof.
  intros Hc.
  apply (run_through motion with_motion); [apply motion_field_laws | done].
Qed.

Lemma run_robot_command command verify r c tr :
  motion r = Some c ->
  run (robot.command SPORT_CMD command verify) net r tr =
  let '(res, c', tr') :=
    run (motion.execute_sport_command SPORT_CMD (PyStr.title command)
           None verify) net c tr in
  (res, with_motion c' r, tr').
Proof.
  intros Hc. unfold robot.command; simpl. rewrite Hc; simpl.
  rewrite run_try_except, (run_self_motion _ r c) by done.
  rewrite run_execute_sport_command.
  destruct (SPORT_CMD !! _); [|done]. simpl.
  by destruct (accepts _).
Qed.

Lemma move_call_cases direction speed duration verify m :
  move_call SPORT_CMD direction speed duration verify = Some m ->
  m = motion.stop SPORT_CMD \/
  exists x y z, m = motion.move SPORT_CMD x y z duration verify.
Proof.
  unfold move_call, motion.move_forward, motion.move_backward,
    motion.move_left, motion.move_right, motion.turn_left, motion.turn_right.
  repeat case_bool_decide; intros [= <-]; eauto.
Qed.

Lemma run_robot_move direction speed duration verify r c tr :
  motion r = Some c ->
  run (robot.move SPORT_CMD direction speed duration verify) net r tr =
  match move_call SPORT_CMD direction speed duration verify with
  | Some m => let '(res, c', tr') := run m net c tr in
              (res, with_motion c' r, tr')
  | None => (Ok false, r, tr)
  end.
Proof.
  intros Hc. unfold robot.move. cbn [run]. rewrite Hc.
  rewrite bool_decide_eq_true_2 by eauto. cbn [negb].
  rewrite run_try_except.
  destruct (move_call SPORT_CMD direction speed duration verify) as [m|] eqn:E.
  - assert (run (robot.self_motion m) net r tr =
            let '(res, c', tr') := run m net c tr in
            (res, with_motion c' r, tr')) as Hrun
      by (by apply run_self_motion).
    assert (exists b c' tr', run m net c tr = (Ok b, c', tr'))
      as (b & c' & tr' & Hm).
    { destruct (move_call_cases _ _ _ _ _ E) as [->|(x & y & z & ->)].
      - rewrite run_stop. destruct (SPORT_CMD !! _); [|by eauto].
        simpl. destruct (accepts _); eauto.
      - rewrite run_move. destruct (SPORT_CMD !! _); [|by eauto].
        simpl. destruct (accepts _); eauto. }
    rewrite Hm in Hrun |- *.
    unfold move_call in E. revert E.
    repeat case_bool_decide; intros [= <-]; by rewrite Hrun.
  - unfold move_call in E. revert E.
    repeat case_bool_decide; intros [=]. done.
Qed.

End RobotMethods.

Lemma run_robot_not_connected
    (SPORT_CMD : gmap string Z) (net : transport) (r : Robot) (tr : trace)
    (direction command : string) (speed duration : Q) (verify : bool) :
  motion r = None ->
  run (robot.move SPORT_CMD direction speed duration verify) net r tr
    = (Ok false, r, tr) /\
  run (robot.command SPORT_CMD command verify) net r tr = (Ok false, r, tr).
Proof.
  intros Hnone. unfold robot.move, robot.command. cbn [run].
  rewrite Hnone. rewrite bool_decide_eq_false_2 by (by intros [? ?]).
  done.
Qed.

(** Case analysis on the reply to the request of the call at hand. *)
Ltac on_reply :=
  match goal with
  | |- context [accepts ?r] =>
      let E := fresh "E" in
      destruct (accepts r) eqn:E; rewrite ?since_app; simpl; rewrite ?E
  end.

(** ** The controller and the robot *)

(** C9. Before a successful [connect], that is while [self.motion] is
    [None], [Robot.move] and [Robot.command] return [False] for every
    direction, speed, duration and command: they raise nothing, send
    nothing and leave the robot as it was. *)
Theorem not_connected_returns_false
    (SPORT_CMD : gmap string Z) (net : transport) (r : Robot) (tr : trace)
    (direction command : string) (speed duration : Q) (verify : bool) :
  motion r = None ->
  run (robot.move SPORT_CMD direction speed duration verify) net r tr
    = (Ok false, r, tr) /\
  run (robot.command SPORT_CMD command verify) net r tr = (Ok false, r, tr).
Proof. apply run_robot_not_connected. Qed.

Lemma not_connected_returns_false_witness :
  motion robot.__init__ = None /\
  run (robot.move go2_SPORT_CMD "forward" 0.5 2 true)
      (always (Response (Some 0))) robot.__init__ []
    = (Ok false, robot.__init__, []) /\
  run (robot.command go2_SPORT_CMD "sit" true)
      (always (Response (Some 0))) robot.__init__ []
    = (Ok false, robot.__init__, []).
Proof.
  split; [reflexivity|].
  apply (not_connected_returns_false go2_SPORT_CMD); reflexivity.
Defined.

(** C10. [MotionController.move] sets [is_moving] to [True] and
    [MotionController.stop] sets it to [False] exactly when the request was
    answered with status code 0; after a non-zero status, a malformed
    reply or a transport exception the flag is what it was; [conn] and
    [current_mode] are never changed by either method. *)
Theorem is_moving_only_on_status_zero
    (SPORT_CMD : gmap string Z) (net : transport) (c : MotionController)
    (tr : trace) (x y z duration : Q) (verify : bool) :
  (let '(_, c', tr') :=
     run (motion.move SPORT_CMD x y z duration verify) net c tr in
   conn c' = conn c /\ current_mode c' = current_mode c /\
   is_moving c' = if acknowledged (since tr tr') then true else is_moving c)
  /\
  (let '(_, c', tr') := run (motion.stop SPORT_CMD) net c tr in
   conn c' = conn c /\ current_mode c' = current_mode c /\
   is_moving c' = if acknowledged (since tr tr') then false else is_moving c).
Proof.
  rewrite run_move, run_stop. split.
  - destruct (SPORT_CMD !! "Move") as [api|]; simpl.
    + by on_reply.
    + by rewrite since_refl.
  - destruct (SPORT_CMD !! "StopMove") as [api|]; simpl.
    + by on_reply.
    + by rewrite since_refl.
Qed.

(** C8. For the modes ["normal"] and ["ai"], [switch_motion_mode] returns
    [False] without any transport request (and changes nothing); a request
    is made only for a mode outside that set, and then [current_mode]
    becomes the requested mode if the reply has status code 0 and keeps
    its value otherwise. *)
Theorem switch_motion_mode_unsupported
    (net : transport) (c : MotionController) (tr : trace) (mode : string) :
  (mode ∈ ["normal"; "ai"] ->
   run (motion.switch_motion_mode mode) net c tr = (Ok false, c, tr)) /\
  (mode ∉ ["normal"; "ai"] ->
   let '(res, c', tr') := run (motion.switch_motion_mode mode) net c tr in
   requests (since tr tr') =
     [Publish MOTION_SWITCHER 1002 (Some [("name", PyStr mode)])] /\
   res = Ok (acknowledged (since tr tr')) /\
   current_mode c' =
     (if acknowledged (since tr tr') then Some mode else current_mode c) /\
   conn c' = conn c /\ is_moving c' = is_moving c).
Proof.
  rewrite run_switch_motion_mode. unfold motion.unsupported_mode. split.
  - intros Hin. by rewrite bool_decide_eq_true_2.
  - intros Hout. rewrite bool_decide_eq_false_2 by done. simpl.
    by on_reply.
Qed.

Lemma switch_motion_mode_unsupported_witness :
  let c := motion.__init__ 7%nat in
  ("ai" ∈ ["normal"; "ai"] /\
   run (motion.switch_motion_mode "ai") (always (Response (Some 0))) c []
     = (Ok false, c, [])) /\
  (("mcf" ∉ ["normal"; "ai"]) /\
   (let '(res, c', tr') :=
      run (motion.switch_motion_mode "mcf") (always (Response (Some 0))) c [] in
    requests (since [] tr') =
      [Publish MOTION_SWITCHER 1002 (Some [("name", PyStr "mcf")])] /\
    res = Ok (acknowledged (since [] tr')) /\
    current_mode c' =
      (if acknowledged (since [] tr') then Some "mcf" else current_mode c) /\
    conn c' = conn c /\ is_moving c' = is_moving c)).
Proof.
  intros c.
  assert ("ai" ∈ ["normal"; "ai"]) as Hin by compute_done.
  assert ("mcf" ∉ ["normal"; "ai"]) as Hout by compute_done.
  split; split; try assumption.
  - exact (proj1 (switch_motion_mode_unsupported _ c [] "ai") Hin).
  - exact (proj2 (switch_motion_mode_unsupported (always (Response (Some 0))) c []
                    "mcf") Hout).
Defined.


(** ** The blocked command and unknown commands *)

Lemma run_test_basic_movement_Damp parameters max_attempts net
    (t : basic_movement_test.BasicMovementTester) tr :
  exists result,
    run (basic_movement_test.test_basic_movement "Damp" parameters max_attempts)
        net t tr = (Ok result, t, tr) /\
    basic_movement_test.result_status result = basic_movement_test.blocked /\
    basic_movement_test.attempts result = 0.
Proof. eexists; split; [reflexivity|done]. Qed.

Lemma title_damp : PyStr.title "damp" = "Damp".
Proof. reflexivity. Qed.

(** Whatever api id the table gives to a command, the request for it is
    published. *)
Lemma known_command_is_published SPORT_CMD net tr command_name api
    parameters verify c :
  SPORT_CMD !! command_name = Some api ->
  exists rest,
    (run (motion.execute_sport_command SPORT_CMD command_name parameters verify)
         net c tr).2
    = tr ++ Sent (sport_request api parameters)
                 (net tr (sport_request api parameters)) :: rest.
Proof.
  intros Hapi. rewrite run_execute_sport_command, Hapi. simpl.
  destruct (accepts _); simpl; eauto.
Qed.

(** C1 is broken by the code. With the driver's table, where ["Damp"] is
    api id 1001, [execute_sport_command("Damp", parameters)] publishes the
    request for api id 1001 on the sport topic, for every controller state,
    parameter payload and transport; so does [Robot.command("damp")] on a
    connected robot. The harness method [test_basic_movement] blocks the
    same command before its first send
    ([run_test_basic_movement_Damp]). *)
Theorem Damp_is_published
    (net : transport) (tr : trace) (parameters : option pydict)
    (verify : bool) (c : MotionController) (k : driver_connection) :
  (exists rest,
     (run (motion.execute_sport_command go2_SPORT_CMD "Damp" parameters verify)
          net c tr).2
     = tr ++ Sent (sport_request 1001 parameters)
                  (net tr (sport_request 1001 parameters)) :: rest) /\
  (exists rest,
     (run (robot.command go2_SPORT_CMD "damp" verify) net (robot.connected k)
          tr).2
     = tr ++ Sent (Publish SPORT_MOD 1001 None)
                  (net tr (Publish SPORT_MOD 1001 None)) :: rest).
Proof.
  assert (go2_SPORT_CMD !! "Damp" = Some 1001) as HDamp by reflexivity.
  split.
  - by apply known_command_is_published.
  - rewrite (run_robot_command _ _ _ _ _ (motion.__init__ k)) by done.
    rewrite title_damp.
    destruct (known_command_is_published go2_SPORT_CMD net tr "Damp" 1001
                None verify (motion.__init__ k) HDamp) as [rest Hrest].
    destruct (run _ net (motion.__init__ k) tr) as [[res c'] tr'].
    by exists rest.
Qed.




(** ** The retry loop of [test_basic_movement] *)

Section RetryLoop.

Import basic_movement_test.

Variable net : transport.

Lemma acknowledged_app evs1 evs2 :
  acknowledged (evs1 ++ evs2) = acknowledged evs1 || acknowledged evs2.
Proof. apply existsb_app. Qed.


Lemma requests_app evs1 evs2 :
  requests (evs1 ++ evs2) = requests evs1 ++ requests evs2.
Proof. apply omap_app. Qed.

Lemma run_attempt info parameters res t tr :
  run (attempt info parameters res) net t tr =
  let res := add_attempt res in
  match conn t with
  | None =>
      (Ok (append_note (ExceptionNote (AttributeError "NoneType")) res, false),
       t, tr)
  | Some _ =>
      let rq := sport_request (id info) parameters in
      let r := net tr rq in
      match result r with
      | Raises e =>
          (Ok (append_note (ExceptionNote e) res, false), t, tr ++ [Sent rq r])
      | Response None =>
          (Ok (append_note (ExceptionNote (KeyError "code")) res, false),
           t, tr ++ [Sent rq r])
      | Response (Some code) =>
          if code =? 0 then
            (Ok (append_note (Note "Command accepted by robot")
                   (set_status accepted res), true),
             t, tr ++ [Sent rq r] ++ settle info)
          else
            let res :=
              append_note (ErrorNote code (_interpret_error_code code))
                (append_error_code code res) in
            if bool_decide (code ∈ firmware_codes) then
              (Ok (append_note
                     (Note "Firmware limitation - command not available")
                     (set_status failed res), true),
               t, tr ++ [Sent rq r])
            else (Ok (res, false), t, tr ++ [Sent rq r])
      end
  end.
Proof.
  unfold attempt, self_conn_publish, sport_request, settle, firmware_codes.
  cbn [run try_except mbind coro_mbind coro_bind].
  destruct (conn t) as [k|]; [|done].
  assert ((if motion.truthy parameters
           then Publish SPORT_MOD (id info) parameters
           else Publish SPORT_MOD (id info) None)
          = Publish SPORT_MOD (id info)
              (if motion.truthy parameters then parameters else None)) as ->
    by (by destruct (motion.truthy parameters)).
  simpl. destruct (net tr _) as [lat [e|[code|]]]; simpl; try done.
  destruct (code =? 0); simpl.
  - case_bool_decide; simpl; by rewrite <- !app_assoc.
  - by case_bool_decide.
Qed.



End RetryLoop.




(** ** Waiting and dispatch *)

Lemma nonneg_ge q : (0 <= nonneg q)%Q.
Proof.
  unfold nonneg. destruct (Qle_bool 0 q) eqn:E.
  - by apply Qle_bool_iff.
  - apply Qle_refl.
Qed.

Lemma waited_le_elapsed evs : (waited evs <= elapsed evs)%Q.
Proof.
  induction evs as [|[rq r|d] evs IH]; simpl.
  - apply Qle_refl.
  - pose proof (nonneg_ge (latency r)). lra.
  - lra.
Qed.

Lemma run_dispatch_all SPORT_CMD net commands c tr :
  exists oks evs,
    run (dispatch_all SPORT_CMD commands) net c tr = (Ok oks, c, tr ++ evs) /\
    length oks = length commands /\
    (waited evs == 2 * inject_Z (Z.of_nat (count_true oks)))%Q /\
    length (requests evs)
    = length (filter (fun cmd => bool_decide (is_Some (SPORT_CMD !! cmd.1)))
                commands).
Proof.
  revert tr. induction commands as [|[name parameters] rest IH]; intros tr.
  - exists [], []. simpl. rewrite app_nil_r. repeat split; try done.
  - cbn [dispatch_all]. rewrite run_bind, run_execute_sport_command.
    destruct (SPORT_CMD !! name) as [api|] eqn:Eapi; cbn zeta.
    + set (rq := sport_request api parameters). set (r := net tr rq).
      destruct (accepts r) eqn:Eacc.
      * destruct (IH (tr ++ [Sent rq r] ++ [Slept 2]))
          as (oks & evs & Hrun & Hlen & Hwait & Hreq).
        exists (true :: oks), ([Sent rq r] ++ [Slept 2] ++ evs).
        rewrite run_bind, Hrun. simpl.
        split; [by rewrite <- !app_assoc|].
        split; [by rewrite Hlen|].
        split.
        -- rewrite Hwait. rewrite Nat2Z.inj_succ, <- Z.add_1_r, inject_Z_plus.
           unfold nonneg. simpl.
           change (inject_Z 1) with 1%Q. change (inject_Z 2) with 2%Q. lra.
        -- rewrite filter_cons. simpl. rewrite Eapi. simpl. by rewrite Hreq.
      * destruct (IH (tr ++ [Sent rq r]))
          as (oks & evs & Hrun & Hlen & Hwait & Hreq).
        exists (false :: oks), ([Sent rq r] ++ evs).
        rewrite run_bind, Hrun. simpl.
        split; [by rewrite <- !app_assoc|].
        split; [by rewrite Hlen|].
        split; [exact Hwait|].
        rewrite filter_cons. simpl. rewrite Eapi. simpl. by rewrite Hreq.
    + destruct (IH tr) as (oks & evs & Hrun & Hlen & Hwait & Hreq).
      exists (false :: oks), evs.
      rewrite run_bind, Hrun. simpl.
      split; [done|]. split; [by rewrite Hlen|]. split; [exact Hwait|].
      rewrite filter_cons. simpl. rewrite Eapi. simpl. done.
Qed.

(** C6 does not hold as stated. Two sport commands dispatched one after the
    other and both rejected by the robot within a millisecond: nothing is
    waited, and the whole takes two milliseconds, less than one dispatch
    interval of 0.2 s. *)
Lemma rejected_dispatches_are_not_spaced :
  let net : transport := fun _ _ => Reply (1 # 1000) (Response (Some 3203)) in
  let min_dispatch_interval : Q := 1 # 5 in
  let c := motion.__init__ 7%nat in
  exists tr,
    run (dispatch_all go2_SPORT_CMD [("Sit", None); ("Sit", None)]) net c []
      = (Ok [false; false], c, tr) /\
    requests tr = [Publish SPORT_MOD 1009 None; Publish SPORT_MOD 1009 None] /\
    (waited tr == 0)%Q /\
    (elapsed tr < (2 - 1) * min_dispatch_interval)%Q.
Proof.
  eexists. split; [vm_compute; reflexivity|].
  split; [reflexivity|]. split; reflexivity.
Qed.

(** C6, in the form that holds. [execute_sport_command] never waits before
    it sends: the first thing a dispatch does is its request. It waits 2 s
    after a dispatch the robot accepted and not at all after one that
    failed. So sequential dispatches wait, in all, 2 s for each accepted
    one, and their elapsed time is at least that. *)
Theorem accepted_dispatches_wait_two_seconds
    (SPORT_CMD : gmap string Z) (net : transport) (c : MotionController)
    (tr : trace) :
  (forall command_name parameters verify,
     let '(_, _, tr') :=
       run (motion.execute_sport_command SPORT_CMD command_name parameters
              verify) net c tr in
     (forall d, head (since tr tr') <> Some (Slept d)) /\
     (waited (since tr tr') ==
        if acknowledged (since tr tr') then 2 else 0)%Q) /\
  (forall commands,
     exists oks evs,
       run (dispatch_all SPORT_CMD commands) net c tr = (Ok oks, c, tr ++ evs)
       /\ length oks = length commands
       /\ (waited evs == 2 * inject_Z (Z.of_nat (count_true oks)))%Q
       /\ (2 * inject_Z (Z.of_nat (count_true oks)) <= elapsed evs)%Q).
Proof.
  split.
  - intros name parameters verify. rewrite run_execute_sport_command.
    destruct (SPORT_CMD !! name) as [api|]; simpl.
    + destruct (accepts _) eqn:E; rewrite since_app; simpl; rewrite E;
        split; try done; reflexivity.
    + rewrite since_refl. simpl. split; [done|reflexivity].
  - intros commands.
    destruct (run_dispatch_all SPORT_CMD net commands c tr)
      as (oks & evs & Hrun & Hlen & Hwait & _).
    exists oks, evs. repeat split; try done.
    rewrite <- Hwait. apply waited_le_elapsed.
Qed.

(** ** Concurrent callers *)






(** For a single caller the event loop does what [run] does. *)
Lemma single_caller_runs {S A} (m : coro S A) net s tr :
  steps (submit s [m]) (Run 0 :: schedule_of m net s tr)
  = {| shared := (run m net s tr).1.2;
       tasks := [Finished (run m net s tr).1.1] |}.
Proof.
  unfold steps, submit. simpl.
  revert s tr. induction m as [a|e|k IH|s0 k IH|rq k IH|d k IH];
    intros s tr; simpl; done.
Qed.




(** ** The emergency channel *)

Section EmergencyChannel.

Import emergency_channel.

Variable SPORT_CMD : gmap string Z.
Variable net : transport.

Lemma executor_field_laws :
  field_laws (fun s => Some (executor s)) with_executor.
Proof.
  split.
  - done.
  - intros c [e st f q r rt ld]; simpl. by intros [= ->].
  - done.
Qed.

Lemma run_send_stop s tr :
  run (send_stop SPORT_CMD) net s tr =
  let '(res, c', tr') := run (motion.stop SPORT_CMD) net (executor s) tr in
  (res, with_executor c' s, tr').
Proof.
  apply (run_through (fun s => Some (executor s)) with_executor);
    [apply executor_field_laws | done].
Qed.

Lemma run_emergency_stop reason s tr :
  run (emergency_stop SPORT_CMD reason) net s tr =
  let '(res, c', tr') := run (motion.stop SPORT_CMD) net (executor s) tr in
  (res, emergency (with_executor c' s), tr').
Proof.
  unfold emergency_stop. rewrite run_bind, run_send_stop, run_stop.
  destruct (SPORT_CMD !! "StopMove") as [api|]; [|done].
  simpl. by destruct (accepts _).
Qed.

End EmergencyChannel.

(** The harness method [BasicMovementTester.emergency_stop] of the sources
    does the same on a connected robot -- it calls [stop] and nothing else --
    and does nothing when the robot is not connected. *)
Lemma run_harness_emergency_stop SPORT_CMD net
    (t : basic_movement_test.BasicMovementTester) tr :
  run (basic_movement_test.emergency_stop SPORT_CMD) net t tr =
  match basic_movement_test.robot t with
  | Some r =>
      match motion r with
      | Some c =>
          let '(_, c', tr') := run (motion.stop SPORT_CMD) net c tr in
          (Ok tt, basic_movement_test.with_robot (with_motion c' r) t, tr')
      | None => (Ok tt, t, tr)
      end
  | None => (Ok tt, t, tr)
  end.
Proof.
  unfold basic_movement_test.emergency_stop.
  rewrite run_try_except. cbn [run].
  destruct (basic_movement_test.robot t) as [r|] eqn:Er; [|done].
  destruct (motion r) as [c|] eqn:Ec.
  - rewrite bool_decide_eq_true_2 by eauto. rewrite run_bind.
    rewrite (run_through basic_movement_test.robot
               basic_movement_test.with_robot _ net t r tr); [| |done].
    + rewrite (run_through motion with_motion _ net r c tr);
        [|apply motion_field_laws|done].
      rewrite run_stop. destruct (SPORT_CMD !! "StopMove"); [|done].
      simpl. by destruct (accepts _).
    + split; [done| |done].
      intros r0 [k0 r1]; simpl. by intros ->.
  - rewrite bool_decide_eq_false_2; [done|]. by intros [? ?].
Qed.

(** C3. [emergency_stop(reason)] returns a boolean, and every call invokes
    the Executor's stop primitive directly: whatever the queue holds,
    whatever action is running and whenever the last dispatch was, what the
    call does on the transport is exactly what [stop] does from the same
    point -- the one stop request, with no wait before or after it -- and
    it returns what [stop] returns. Afterwards the safety state is
    [EmergencyStop] and no pending action other than a stop is left in the
    queue. As a task of the event loop, the call sends the stop request the
    first time it runs, in any state of the bundle. *)
Theorem emergency_stop_calls_stop_directly
    (SPORT_CMD : gmap string Z) (net : transport)
    (s : emergency_channel.Subsystem) (tr : trace) (reason : string) :
  let '(res, s', tr') :=
    run (emergency_channel.emergency_stop SPORT_CMD reason) net s tr in
  let stop :=
    run (motion.stop SPORT_CMD) net (emergency_channel.executor s) tr in
  res = Ok (acknowledged (since tr tr')) /\
  res = stop.1.1 /\ tr' = stop.2 /\
  requests (since tr tr') =
    match SPORT_CMD !! "StopMove" with
    | Some api => [Publish SPORT_MOD api None]
    | None => []
    end /\
  (waited (since tr tr') == 0)%Q /\
  emergency_channel.safety_state s' = emergency_channel.EmergencyStop /\
  Forall (fun a => emergency_channel.kind a = emergency_channel.Stop)
    (emergency_channel.queue s') /\
  match SPORT_CMD !! "StopMove" with
  | Some api =>
      exists k,
        resume (emergency_channel.emergency_stop SPORT_CMD reason) s
        = (s, AwaitingReply (Publish SPORT_MOD api None) k)
  | None => True
  end.
Proof.
  assert (match SPORT_CMD !! "StopMove" with
          | Some api =>
              exists k,
                resume (emergency_channel.emergency_stop SPORT_CMD reason) s
                = (s, AwaitingReply (Publish SPORT_MOD api None) k)
          | None => True
          end) as Hfirst.
  { destruct (SPORT_CMD !! "StopMove") as [api|] eqn:E; [|done].
    unfold emergency_channel.emergency_stop, emergency_channel.send_stop,
      motion.stop, motion.SPORT_CMD_item.
    rewrite E. simpl. eauto. }
  revert Hfirst.
  rewrite run_emergency_stop, run_stop.
  assert (Forall (fun a => emergency_channel.kind a = emergency_channel.Stop)
            (filter (fun a => emergency_channel.kind a = emergency_channel.Stop)
               (emergency_channel.queue s))) as Hq.
  { apply Forall_forall. intros a Ha.
    by apply list_elem_of_filter in Ha as [? _]. }
  destruct (SPORT_CMD !! "StopMove") as [api|]; simpl.
  - destruct (accepts _) eqn:E; rewrite since_app; simpl; rewrite E;
      repeat split; try done.
  - rewrite since_refl. repeat split; try done.
Qed.

(** * Further properties of the code *)

(** ** Python's case conversions on ASCII text *)










(** ** [Robot.command], [Robot.dance] and the directions of [Robot.move] *)





Lemma run_robot_move_normalised SPORT_CMD net r tr d1 d2 speed duration
    verify :
  normalised d1 = normalised d2 ->
  run (robot.move SPORT_CMD d1 speed duration verify) net r tr
  = run (robot.move SPORT_CMD d2 speed duration verify) net r tr.
Proof.
  intros H. unfold robot.move. cbv zeta.
  change (PyStr.replace "_" "-" (PyStr.lower d1)) with (normalised d1).
  change (PyStr.replace "_" "-" (PyStr.lower d2)) with (normalised d2).
  by rewrite H.
Qed.



(** ** Movement patterns of the controller *)

Section Patterns.

Variable SPORT_CMD : gmap string Z.
Variable net : transport.
Variables mv st : Z.
Hypothesis Move_id : SPORT_CMD !! "Move" = Some mv.
Hypothesis StopMove_id : SPORT_CMD !! "StopMove" = Some st.

Lemma run_move_then {B} x y z duration verify
    (f : bool -> coro MotionController B) c tr :
  run (motion.move SPORT_CMD x y z duration verify ≫= f) net c tr =
  let rq := move_request mv x y z in
  let r := net tr rq in
  if accepts r
  then run (f true) net (with_is_moving true c)
         (tr ++ [Sent rq r; Slept duration])
  else run (f false) net c (tr ++ [Sent rq r]).
Proof.
  rewrite run_bind, run_move, Move_id. cbv zeta.
  unfold move_request. by destruct (accepts _).
Qed.

Lemma run_stop_then {B} (f : bool -> coro MotionController B) c tr :
  run (motion.stop SPORT_CMD ≫= f) net c tr =
  let rq := stop_request st in
  let r := net tr rq in
  if accepts r
  then run (f true) net (with_is_moving false c) (tr ++ [Sent rq r])
  else run (f false) net c (tr ++ [Sent rq r]).
Proof.
  rewrite run_bind, run_stop, StopMove_id. cbv zeta.
  unfold stop_request. by destruct (accepts _).
Qed.

Lemma run_sleep_then {S B} seconds (f : unit -> coro S B) (s : S) tr :
  run (sleep seconds ≫= f) net s tr = run (f tt) net s (tr ++ [Slept seconds]).
Proof. done. Qed.

End Patterns.

(** Case analysis on the reply to the next request of a pattern. *)
Ltac on_answer net :=
  match goal with
  | |- context [accepts (net ?t ?rq)] =>
      let r := fresh "r" in
      let E := fresh "E" in
      generalize (net t rq); intros r; destruct (accepts r) eqn:E
  end.

Ltac pattern_step Move_id StopMove_id :=
  first [ rewrite (run_move_then _ _ _ Move_id)
        | rewrite (run_stop_then _ _ _ StopMove_id)
        | rewrite run_sleep_then ];
  cbv zeta.

Ltac run_pattern net Move_id StopMove_id :=
  repeat (cbn [negb run];
          first [ pattern_step Move_id StopMove_id | on_answer net ]).

(** The replies met on the way decide every [accepts] left in the goal. *)
Ltac use_answers :=
  repeat match goal with
         | E : accepts _ = _ |- _ => rewrite ?E; clear E
         end.

Ltac pattern_events :=
  cbv zeta beta; rewrite <- ?app_assoc, since_app;
  unfold answers, moving_after; simpl; use_answers; simpl.

Ltac close_leaf :=
  repeat split; first [done | lia | (vm_compute; reflexivity)].

(** X4. [walk_square] never raises. The requests it makes are the first
    ones of the square -- forward, stop, right, stop, backward, stop, left,
    stop -- in that order: all eight when it returns [True], which happens
    exactly when each of the four moves was acknowledged (the replies to the
    stops are not looked at); and when a move is not acknowledged it
    returns [False] at once, so that move is the last request and no stop
    follows it. Each acknowledged side waits its 2 s and 1 s after its stop,
    except that nothing is waited after the last stop. The flag
    [is_moving] ends as the last acknowledged request left it. *)
Theorem walk_square_sides
    (SPORT_CMD : gmap string Z) (net : transport) (mv st : Z)
    (side_length : Q) (verify : bool) (c : MotionController) (tr : trace) :
  SPORT_CMD !! "Move" = Some mv ->
  SPORT_CMD !! "StopMove" = Some st ->
  let '(res, c', tr') :=
    run (motion_patterns.walk_square SPORT_CMD side_length verify) net c tr in
  let evs := since tr tr' in
  exists (ok : bool) (sides : nat),
    res = Ok ok /\
    (if ok then sides = 4%nat else (sides < 4)%nat) /\
    map fst (answers evs)
      = take (2 * sides + (if ok then 0 else 1)) (square mv st side_length) /\
    map snd (filter has_parameter (answers evs))
      = replicate sides true ++ (if ok then [] else [false]) /\
    (waited evs == if ok then 11 else 3 * inject_Z (Z.of_nat sides))%Q /\
    conn c' = conn c /\ current_mode c' = current_mode c /\
    is_moving c' = moving_after evs (is_moving c).
Proof.
  intros Move_id StopMove_id.
  unfold motion_patterns.walk_square, motion.move_forward, motion.move_right,
    motion.move_backward, motion.move_left.
  rewrite run_try_except.
  run_pattern net Move_id StopMove_id.
  all: pattern_events.
  all: first [ solve [exists true, 4%nat; close_leaf]
             | solve [exists false, 0%nat; close_leaf]
             | solve [exists false, 1%nat; close_leaf]
             | solve [exists false, 2%nat; close_leaf]
             | solve [exists false, 3%nat; close_leaf] ].
Qed.

Lemma walk_square_sides_witness :
  go2_SPORT_CMD !! "Move" = Some 1008 /\
  go2_SPORT_CMD !! "StopMove" = Some 1003 /\
  (let '(res, c', tr') :=
     run (motion_patterns.walk_square go2_SPORT_CMD 0.5 true)
       (always (Response (Some 0))) (motion.__init__ 7%nat) [] in
   let evs := since [] tr' in
   exists (ok : bool) (sides : nat),
     res = Ok ok /\
     (if ok then sides = 4%nat else (sides < 4)%nat) /\
     map fst (answers evs)
       = take (2 * sides + (if ok then 0 else 1)) (square 1008 1003 0.5) /\
     map snd (filter has_parameter (answers evs))
       = replicate sides true ++ (if ok then [] else [false]) /\
     (waited evs == if ok then 11 else 3 * inject_Z (Z.of_nat sides))%Q /\
     conn c' = conn (motion.__init__ 7%nat) /\
     current_mode c' = current_mode (motion.__init__ 7%nat) /\
     is_moving c' = moving_after evs (is_moving (motion.__init__ 7%nat))).
Proof.
  split; [reflexivity|]. split; [reflexivity|].
  apply (walk_square_sides go2_SPORT_CMD (always (Response (Some 0)))
           1008 1003 0.5 true (motion.__init__ 7%nat) []); reflexivity.
Defined.

(** X5. [spin_360] turns right only when the lower-cased direction is
    ["right"] and turns left for every other string; it makes exactly two
    requests, the turn (yaw 0.5 for 6 s) and then the stop, which is sent
    also when the turn was not acknowledged; it returns the result of the
    turn, whatever the stop gave, and never raises. *)
Theorem spin_360_turns_then_stops
    (SPORT_CMD : gmap string Z) (net : transport) (mv st : Z)
    (direction : string) (verify : bool) (c : MotionController) (tr : trace) :
  SPORT_CMD !! "Move" = Some mv ->
  SPORT_CMD !! "StopMove" = Some st ->
  let z := if bool_decide (PyStr.lower direction = "right")
           then (- 0.5)%Q else 0.5%Q in
  let '(res, c', tr') :=
    run (motion_patterns.spin_360 SPORT_CMD direction verify) net c tr in
  let evs := since tr tr' in
  exists turned stopped : bool,
    answers evs = [(move_request mv 0 0 z, turned); (stop_request st, stopped)]
    /\ res = Ok turned
    /\ sleeps evs = (if turned then [6%Q] else [])
    /\ conn c' = conn c /\ current_mode c' = current_mode c
    /\ is_moving c' = moving_after evs (is_moving c).
Proof.
  intros Move_id StopMove_id.
  unfold motion_patterns.spin_360, motion.turn_right, motion.turn_left.
  rewrite run_try_except.
  case_bool_decide.
  all: run_pattern net Move_id StopMove_id.
  all: pattern_events.
  all: eexists _, _; by repeat split.
Qed.

Lemma spin_360_turns_then_stops_witness :
  go2_SPORT_CMD !! "Move" = Some 1008 /\
  go2_SPORT_CMD !! "StopMove" = Some 1003 /\
  (let '(res, c', tr') :=
     run (motion_patterns.spin_360 go2_SPORT_CMD "Left" true)
       (always (Response (Some 0))) (motion.__init__ 7%nat) [] in
   let evs := since [] tr' in
   exists turned stopped : bool,
     answers evs = [(move_request 1008 0 0 0.5, turned);
                    (stop_request 1003, stopped)]
     /\ res = Ok turned
     /\ sleeps evs = (if turned then [6%Q] else [])
     /\ conn c' = conn (motion.__init__ 7%nat)
     /\ current_mode c' = current_mode (motion.__init__ 7%nat)
     /\ is_moving c' = moving_after evs (is_moving (motion.__init__ 7%nat))).
Proof.
  split; [reflexivity|]. split; [reflexivity|].
  apply (spin_360_turns_then_stops go2_SPORT_CMD (always (Response (Some 0)))
           1008 1003 "Left" true (motion.__init__ 7%nat) []); reflexivity.
Defined.

(** X6. [handstand(enable)] looks up ["StandOut"] (not ["Handstand"]) and
    sends one request for it whose parameter is [{"data": enable}], also
    when [enable] is [False]; it returns whether that request was
    acknowledged, leaves the controller as it was and never raises. Without
    a ["StandOut"] entry nothing is sent. *)
Theorem handstand_sends_StandOut
    (SPORT_CMD : gmap string Z) (net : transport)
    (enable verify : bool) (c : MotionController) (tr : trace) :
  let '(res, c', tr') :=
    run (motion_patterns.handstand SPORT_CMD enable verify) net c tr in
  let evs := since tr tr' in
  requests evs =
    match SPORT_CMD !! "StandOut" with
    | Some api => [Publish SPORT_MOD api (Some [("data", PyBool enable)])]
    | None => []
    end /\
  res = Ok (acknowledged evs) /\
  c' = c.
Proof.
  unfold motion_patterns.handstand.
  rewrite run_try_except, run_execute_sport_command.
  destruct (SPORT_CMD !! "StandOut") as [api|]; simpl.
  - by on_reply.
  - by rewrite since_refl.
Qed.

(** ** [test_advanced_movement_availability] *)

Lemma dict_set_fresh {V} (key : string) (value : V) d :
  key ∉ map fst d -> motion_patterns.dict_set key value d = d ++ [(key, value)].
Proof.
  induction d as [|[k v] d IH]; [done|].
  simpl. rewrite not_elem_of_cons. intros [Hne Hd].
  rewrite bool_decide_eq_false_2 by done. by rewrite IH.
Qed.

Lemma sleeps_app evs1 evs2 : sleeps (evs1 ++ evs2) = sleeps evs1 ++ sleeps evs2.
Proof. apply omap_app. Qed.

Lemma answers_app evs1 evs2 :
  answers (evs1 ++ evs2) = answers evs1 ++ answers evs2.
Proof. apply omap_app. Qed.

Section Availability.

Variable SPORT_CMD : gmap string Z.
Variable net : transport.

(** One pass of the loop, up to its sleep. *)
Lemma run_probe name availability (c : MotionController) tr :
  run (try_except
         (api ← motion.SPORT_CMD_item SPORT_CMD name;
          response ← publish_request_new (Publish SPORT_MOD api None);
          code ← status_code response;
          if code =? 0
          then Ret (motion_patterns.dict_set name true availability)
          else Ret (motion_patterns.dict_set name false availability))
         (fun e => Ret (motion_patterns.dict_set name false availability)))
      net c tr =
  match SPORT_CMD !! name with
  | None => (Ok (motion_patterns.dict_set name false availability), c, tr)
  | Some api =>
      let rq := Publish SPORT_MOD api None in
      let r := net tr rq in
      (Ok (motion_patterns.dict_set name (accepts r) availability), c,
       tr ++ [Sent rq r])
  end.
Proof.
  unfold motion.SPORT_CMD_item, accepts.
  destruct (SPORT_CMD !! name) as [api|]; [|done].
  simpl. destruct (net tr _) as [lat [e|[code|]]]; simpl; try done.
  by destruct (code =? 0).
Qed.

Lemma run_availability_loop commands :
  forall availability (c : MotionController) tr,
    NoDup commands ->
    (forall name, name ∈ commands -> name ∉ map fst availability) ->
    exists new evs,
      run (motion_patterns.availability_loop SPORT_CMD commands availability)
          net c tr = (Ok (availability ++ new), c, tr ++ evs) /\
      map fst new = commands /\
      requests evs = omap (probe SPORT_CMD) commands /\
      sleeps evs = replicate (length commands) 0.5%Q /\
      (forall name ok, (name, ok) ∈ new ->
         match SPORT_CMD !! name with
         | Some api => (Publish SPORT_MOD api None, ok) ∈ answers evs
         | None => ok = false
         end).
Proof.
  induction commands as [|name rest IH]; intros availability c tr Hnd Hfresh.
  - exists [], []. simpl. rewrite !app_nil_r.
    repeat split; try done. by intros name ok ?%elem_of_nil.
  - apply NoDup_cons in Hnd as [Hname Hnd].
    cbn [motion_patterns.availability_loop].
    rewrite run_bind, run_probe.
    assert (name ∉ map fst availability) as Hn
      by (apply Hfresh; apply elem_of_cons; by left).
    assert (forall ok tr1 ev1,
              requests ev1 = from_option (fun rq => [rq]) [] (probe SPORT_CMD name) ->
              sleeps ev1 = [] ->
              match SPORT_CMD !! name with
              | Some api => answers ev1 = [(Publish SPORT_MOD api None, ok)]
              | None => ok = false /\ ev1 = []
              end ->
              tr1 = tr ++ ev1 ->
              exists new evs,
                run (sleep 0.5;;
                     motion_patterns.availability_loop SPORT_CMD rest
                       (motion_patterns.dict_set name ok availability))
                    net c tr1 = (Ok (availability ++ new), c, tr ++ evs) /\
                map fst new = name :: rest /\
                requests evs = omap (probe SPORT_CMD) (name :: rest) /\
                sleeps evs = replicate (length (name :: rest)) 0.5%Q /\
                (forall name0 ok0, (name0, ok0) ∈ new ->
                   match SPORT_CMD !! name0 with
                   | Some api => (Publish SPORT_MOD api None, ok0) ∈ answers evs
                   | None => ok0 = false
                   end)) as Hrest.
    { intros ok tr1 ev1 Hrq Hsl Hans ->.
      rewrite run_sleep_then, dict_set_fresh by done.
      destruct (IH (availability ++ [(name, ok)]) c
                  ((tr ++ ev1) ++ [Slept 0.5%Q]) Hnd)
        as (new & evs & Hrun & Hkeys & Hreqs & Hsleeps & Hvals).
      { intros n Hin. rewrite map_app, not_elem_of_app. split.
        - apply Hfresh. apply elem_of_cons. by right.
        - simpl. rewrite not_elem_of_cons. split; [|apply not_elem_of_nil].
          by intros ->. }
      exists ((name, ok) :: new), (ev1 ++ Slept 0.5%Q :: evs).
      rewrite Hrun. split.
      { f_equal; [f_equal|].
        - by rewrite <- app_assoc.
        - by rewrite <- !app_assoc. }
      split; [simpl; by rewrite Hkeys|].
      split.
      { rewrite requests_app, Hrq.
        change (requests (Slept 0.5%Q :: evs)) with (requests evs).
        rewrite Hreqs. cbn [omap list_omap].
        by destruct (probe SPORT_CMD name). }
      split.
      { rewrite sleeps_app, Hsl.
        change (sleeps (Slept 0.5%Q :: evs)) with (0.5%Q :: sleeps evs).
        by rewrite Hsleeps. }
      intros name0 ok0 [[= -> ->]|Hin]%elem_of_cons.
      - destruct (SPORT_CMD !! name) as [api|]; [|by destruct Hans].
        rewrite answers_app, Hans. apply elem_of_cons. by left.
      - specialize (Hvals name0 ok0 Hin).
        destruct (SPORT_CMD !! name0) as [api0|]; [|done].
        rewrite answers_app. apply elem_of_app. by right. }
    unfold probe in Hrest.
    destruct (SPORT_CMD !! name) as [api|] eqn:E; cbv zeta.
    + eapply Hrest; [| | |reflexivity]; done.
    + apply (Hrest false tr []); try done. by rewrite app_nil_r.
Qed.

End Availability.

(** X7. [test_advanced_movement_availability] always returns a dictionary
    with the same seven keys, in the order of its list, and never raises.
    For every one of the seven names that the command table has, it
    publishes the command itself -- the request of [execute_sport_command]
    for that name without parameters -- so an available movement is
    carried out by the robot; a name that the table lacks is not sent. An
    entry is [True] only if the request for it was acknowledged. It sleeps
    0.5 s after each of the seven and leaves the controller as it was. *)
Theorem availability_test_publishes_the_commands
    (SPORT_CMD : gmap string Z) (net : transport)
    (c : MotionController) (tr : trace) :
  exists availability evs,
    run (motion_patterns.test_advanced_movement_availability SPORT_CMD)
        net c tr = (Ok availability, c, tr ++ evs) /\
    map fst availability = motion_patterns.advanced_commands /\
    requests evs =
      omap (fun name =>
              (fun api => sport_request api None) <$> SPORT_CMD !! name)
           motion_patterns.advanced_commands /\
    sleeps evs = replicate 7 0.5%Q /\
    (forall name ok, (name, ok) ∈ availability ->
       match SPORT_CMD !! name with
       | Some api => (Publish SPORT_MOD api None, ok) ∈ answers evs
       | None => ok = false
       end).
Proof.
  unfold motion_patterns.test_advanced_movement_availability.
  destruct (run_availability_loop SPORT_CMD net
              motion_patterns.advanced_commands [] c tr)
    as (new & evs & Hrun & Hkeys & Hreqs & Hsleeps & Hvals).
  - unfold motion_patterns.advanced_commands. compute_done.
  - intros name _. apply not_elem_of_nil.
  - exists new, evs. by repeat split.
Qed.

(** ** [Robot.walk_square], [Robot.spin_360] and [Robot.disconnect] *)

(** A body under [except Exception: return ...] returns. *)
Lemma try_except_returns {S A} (body : coro S A) (a0 : A) net s tr :
  exists a s' tr',
    run (try_except body (fun _ => Ret a0)) net s tr = (Ok a, s', tr').
Proof.
  rewrite run_try_except.
  destruct (run body net s tr) as [[[a|e] s'] tr']; simpl; eauto.
Qed.

Lemma run_robot_pattern net (m : coro MotionController bool)
    r c tr :
  motion r = Some c ->
  (exists b c' tr', run m net c tr = (Ok b, c', tr')) ->
  run (Load (fun self =>
         if negb (bool_decide (is_Some (motion self))) then Ret false
         else try_except (robot.self_motion m) (fun e => Ret false)))
      net r tr =
  (let '(res, c', tr') := run m net c tr in (res, with_motion c' r, tr')).
Proof.
  intros Hc (b & c' & tr' & Hm). cbn [run]. rewrite Hc.
  rewrite bool_decide_eq_true_2 by eauto. cbn [negb].
  rewrite run_try_except, (run_self_motion net m r c tr Hc).
  by rewrite Hm.
Qed.

(** X8. [Robot.walk_square] and [Robot.spin_360] return [False] without a
    request and without a change while the robot has no controller; on a
    connected robot they are the controller's [walk_square] and [spin_360]
    with [verify=True], run on the controller that the robot holds. *)
Theorem robot_patterns_delegate
    (SPORT_CMD : gmap string Z) (net : transport) (r : Robot) (tr : trace)
    (side_length : Q) (direction : string) :
  (motion r = None ->
   run (robot_patterns.walk_square SPORT_CMD side_length) net r tr
     = (Ok false, r, tr) /\
   run (robot_patterns.spin_360 SPORT_CMD direction) net r tr
     = (Ok false, r, tr)) /\
  (forall c, motion r = Some c ->
   run (robot_patterns.walk_square SPORT_CMD side_length) net r tr
     = (let '(res, c', tr') :=
          run (motion_patterns.walk_square SPORT_CMD side_length true)
            net c tr in
        (res, with_motion c' r, tr')) /\
   run (robot_patterns.spin_360 SPORT_CMD direction) net r tr
     = (let '(res, c', tr') :=
          run (motion_patterns.spin_360 SPORT_CMD direction true) net c tr in
        (res, with_motion c' r, tr'))).
Proof.
  split.
  - intros Hnone.
    unfold robot_patterns.walk_square, robot_patterns.spin_360. cbn [run].
    rewrite Hnone. rewrite bool_decide_eq_false_2 by (by intros [? ?]).
    done.
  - intros c Hc. split.
    + apply run_robot_pattern; [done|].
      apply try_except_returns.
    + apply run_robot_pattern; [done|].
      apply try_except_returns.
Qed.

Lemma robot_patterns_delegate_witness :
  (motion robot.__init__ = None /\
   run (robot_patterns.walk_square go2_SPORT_CMD 0.5)
       (always (Response (Some 0))) robot.__init__ []
     = (Ok false, robot.__init__, []) /\
   run (robot_patterns.spin_360 go2_SPORT_CMD "right")
       (always (Response (Some 0))) robot.__init__ []
     = (Ok false, robot.__init__, [])) /\
  (motion (robot.connected 7%nat) = Some (motion.__init__ 7%nat) /\
   run (robot_patterns.walk_square go2_SPORT_CMD 0.5)
       (always (Response (Some 0))) (robot.connected 7%nat) []
     = (let '(res, c', tr') :=
          run (motion_patterns.walk_square go2_SPORT_CMD 0.5 true)
            (always (Response (Some 0))) (motion.__init__ 7%nat) [] in
        (res, with_motion c' (robot.connected 7%nat), tr')) /\
   run (robot_patterns.spin_360 go2_SPORT_CMD "right")
       (always (Response (Some 0))) (robot.connected 7%nat) []
     = (let '(res, c', tr') :=
          run (motion_patterns.spin_360 go2_SPORT_CMD "right" true)
            (always (Response (Some 0))) (motion.__init__ 7%nat) [] in
        (res, with_motion c' (robot.connected 7%nat), tr'))).
Proof.
  split.
  - split; [reflexivity|].
    apply (proj1 (robot_patterns_delegate go2_SPORT_CMD
                    (always (Response (Some 0))) robot.__init__ []
                    0.5 "right")).
    reflexivity.
  - split; [reflexivity|].
    apply (proj2 (robot_patterns_delegate go2_SPORT_CMD
                    (always (Response (Some 0))) (robot.connected 7%nat) []
                    0.5 "right")).
    reflexivity.
Defined.

(** X9. [Robot.disconnect], on a robot that is not streaming, never raises.
    With no connection it returns [True] and changes nothing. With a
    connection it returns what [connection.disconnect()] returned, [False]
    included, and in either case forgets the connection and the
    controller, so that every later [move] and [command] returns [False]
    without a request. If [connection.disconnect()] raises, [disconnect]
    returns [False] and the robot keeps its connection and controller. *)
Theorem disconnect_forgets_the_controller
    (stop_data_stream : coro Robot unit) (connection_disconnect : returned bool)
    (net : transport) (r : Robot) (tr : trace) :
  _data_streaming_active r = false ->
  let '(res, r', tr') :=
    run (robot_patterns.disconnect stop_data_stream connection_disconnect)
      net r tr in
  match connection r, connection_disconnect with
  | None, _ => res = Ok true /\ r' = r
  | Some _, Ok success =>
      res = Ok success /\ connection r' = None /\ motion r' = None /\
      forall SPORT_CMD direction speed duration command verify,
        run (robot.move SPORT_CMD direction speed duration verify) net r' tr'
          = (Ok false, r', tr') /\
        run (robot.command SPORT_CMD command verify) net r' tr'
          = (Ok false, r', tr')
  | Some _, Exc e => res = Ok false /\ r' = r
  end.
Proof.
  intros Hstream. unfold robot_patterns.disconnect.
  rewrite run_try_except. cbn [run]. rewrite Hstream.
  cbn [run mbind coro_mbind coro_bind].
  destruct (connection r) as [k|] eqn:Ek; [|done].
  destruct connection_disconnect as [success|e]; [|done].
  simpl. by repeat split.
Qed.

Lemma disconnect_forgets_the_controller_witness :
  _data_streaming_active (robot.connected 7%nat) = false /\
  (let '(res, r', tr') :=
     run (robot_patterns.disconnect (Ret tt) (Ok false))
       (always (Response (Some 0))) (robot.connected 7%nat) [] in
   res = Ok false /\ connection r' = None /\ motion r' = None /\
   forall SPORT_CMD direction speed duration command verify,
     run (robot.move SPORT_CMD direction speed duration verify)
         (always (Response (Some 0))) r' tr' = (Ok false, r', tr') /\
     run (robot.command SPORT_CMD command verify)
         (always (Response (Some 0))) r' tr' = (Ok false, r', tr')).
Proof.
  split; [reflexivity|].
  apply (disconnect_forgets_the_controller (Ret tt) (Ok false)
           (always (Response (Some 0))) (robot.connected 7%nat) []).
  reflexivity.
Defined.

(** ** [_get_expected_direction] *)

Lemma gt_true a b : motion_patterns.gt a b = true <-> (b < a)%Q.
Proof.
  unfold motion_patterns.gt. rewrite negb_true_iff.
  destruct (Qle_bool a b) eqn:E.
  - apply Qle_bool_iff in E. split; [done|]. intros H.
    by apply Qlt_not_le in H.
  - split; [|done]. intros _. apply Qnot_le_lt. intros H.
    apply Qle_bool_iff in H. congruence.
Qed.

Lemma gt_false a b : motion_patterns.gt a b = false <-> (a <= b)%Q.
Proof.
  destruct (motion_patterns.gt a b) eqn:E.
  - apply gt_true in E. split; [done|]. intros H. by apply Qlt_not_le in E.
  - split; [|done]. intros _. apply Qnot_lt_le. intros H.
    apply gt_true in H. congruence.
Qed.

(** The value of the next comparison in the goal, from the facts at hand. *)
Ltac compare_with H1 H2 H3 :=
  match goal with
  | |- context [motion_patterns.gt ?a ?b] =>
      first [ rewrite (proj2 (gt_true a b)) by (rewrite ?H1, ?H2, ?H3; lra)
            | rewrite (proj2 (gt_false a b)) by (rewrite ?H1, ?H2, ?H3; lra) ]
  end.

Lemma expected_direction_of_axes (speed : Q) :
  (0 < speed)%Q ->
  motion_patterns._get_expected_direction speed 0 0 = "forward" /\
  motion_patterns._get_expected_direction (- speed) 0 0 = "backward" /\
  motion_patterns._get_expected_direction 0 speed 0 = "left" /\
  motion_patterns._get_expected_direction 0 (- speed) 0 = "right" /\
  motion_patterns._get_expected_direction 0 0 speed = "turn-left" /\
  motion_patterns._get_expected_direction 0 0 (- speed) = "turn-right".
Proof.
  intros Hpos.
  assert (Qabs speed == speed)%Q as H1 by (apply Qabs_pos; lra).
  assert (Qabs (- speed) == speed)%Q as H2 by (by rewrite Qabs_opp).
  assert (Qabs 0 == 0)%Q as H3 by reflexivity.
  unfold motion_patterns._get_expected_direction.
  repeat split; repeat (compare_with H1 H2 H3; cbn [andb]); reflexivity.
Qed.

(** X10. [_get_expected_direction] names the vector of a move back: for a
    positive speed and each of the eight movement directions that
    [Robot.move] knows, in any spelling, the move request carries a vector
    that [_get_expected_direction] names by a direction for which
    [Robot.move] makes the very same call. A vector whose three
    coordinates have the same absolute value, the zero vector among them,
    is named ["unknown"], which is no direction of [Robot.move]. *)
Theorem expected_direction_round_trip
    (SPORT_CMD : gmap string Z) (net : transport) (r : Robot)
    (c : MotionController) (tr : trace) (mv : Z)
    (direction : string) (speed duration : Q) (verify : bool) :
  (0 < speed)%Q ->
  motion r = Some c ->
  SPORT_CMD !! "Move" = Some mv ->
  normalised direction ∈ known_directions ->
  normalised direction <> "stop" ->
  (let '(_, _, tr') :=
     run (robot.move SPORT_CMD direction speed duration verify) net r tr in
   exists x y z,
     requests (since tr tr') = [move_request mv x y z] /\
     run (robot.move SPORT_CMD
            (motion_patterns._get_expected_direction x y z)
            speed duration verify) net r tr
     = run (robot.move SPORT_CMD direction speed duration verify) net r tr) /\
  (forall x y z,
     (Qabs x == Qabs y)%Q -> (Qabs y == Qabs z)%Q ->
     motion_patterns._get_expected_direction x y z = "unknown" /\
     normalised "unknown" ∉ known_directions).
Proof.
  intros Hpos Hc Move_id Hknown Hstop. split.
  - destruct (expected_direction_of_axes speed Hpos)
      as (Hf & Hb & Hl & Hr & Htl & Htr).
    assert (forall name x y z,
              normalised direction = normalised name ->
              move_call SPORT_CMD name speed duration verify
                = Some (motion.move SPORT_CMD x y z duration verify) ->
              forall name',
              motion_patterns._get_expected_direction x y z = name' ->
              normalised name' = normalised name \/
              move_call SPORT_CMD name' speed duration verify
                = Some (motion.move SPORT_CMD x y z duration verify) ->
              let '(_, _, tr') :=
                run (robot.move SPORT_CMD direction speed duration verify)
                  net r tr in
              exists x y z,
                requests (since tr tr') = [move_request mv x y z] /\
                run (robot.move SPORT_CMD
                       (motion_patterns._get_expected_direction x y z)
                       speed duration verify) net r tr
                = run (robot.move SPORT_CMD direction speed duration verify)
                    net r tr) as Hcase.
    { intros name x y z Hname Hcall name' Hexp Hsame.
      rewrite (run_robot_move_normalised _ _ _ _ direction name) by done.
      rewrite (run_robot_move SPORT_CMD net name _ _ _ r c tr Hc), Hcall.
      rewrite run_move, Move_id. cbv zeta.
      assert (run (robot.move SPORT_CMD name' speed duration verify) net r tr
              = let '(res, c', tr') :=
                  run (motion.move SPORT_CMD x y z duration verify) net c tr in
                (res, with_motion c' r, tr')) as Hrun.
      { destruct Hsame as [Hn|Hcall'].
        - rewrite (run_robot_move_normalised _ _ _ _ name' name) by done.
          by rewrite (run_robot_move SPORT_CMD net name _ _ _ r c tr Hc), Hcall.
        - by rewrite (run_robot_move SPORT_CMD net name' _ _ _ r c tr Hc),
            Hcall'. }
      rewrite run_move, Move_id in Hrun. cbv zeta in Hrun.
      destruct (accepts _); rewrite since_app;
        exists x, y, z; (split; [done|]); by rewrite Hexp, Hrun. }
    unfold known_directions in Hknown.
    rewrite !elem_of_cons, elem_of_nil in Hknown.
    destruct Hknown as [H|[H|[H|[H|[H|[H|[H|[H|[H|[]]]]]]]]]]; [..|done].
    + by apply (Hcase "forward" speed 0%Q 0%Q H eq_refl "forward" Hf); left.
    + by apply (Hcase "backward" (- speed)%Q 0%Q 0%Q H eq_refl "backward" Hb);
        left.
    + by apply (Hcase "left" 0%Q speed 0%Q H eq_refl "left" Hl); left.
    + by apply (Hcase "right" 0%Q (- speed)%Q 0%Q H eq_refl "right" Hr); left.
    + by apply (Hcase "turn-left" 0%Q 0%Q speed H eq_refl "turn-left" Htl);
        left.
    + by apply (Hcase "turnleft" 0%Q 0%Q speed H eq_refl "turn-left" Htl);
        right.
    + by apply (Hcase "turn-right" 0%Q 0%Q (- speed)%Q H eq_refl "turn-right"
                  Htr); left.
    + by apply (Hcase "turnright" 0%Q 0%Q (- speed)%Q H eq_refl "turn-right"
                  Htr); right.
  - intros x y z Hxy Hyz. split; [|compute_done].
    unfold motion_patterns._get_expected_direction.
    rewrite (proj2 (gt_false (Qabs x) (Qabs y))) by (rewrite Hxy; lra).
    rewrite (proj2 (gt_false (Qabs y) (Qabs x))) by (rewrite Hxy; lra).
    rewrite (proj2 (gt_false (Qabs z) (Qabs x)))
      by (rewrite Hxy, Hyz; lra).
    reflexivity.
Qed.

Lemma expected_direction_round_trip_witness :
  (0 < 0.5)%Q /\
  motion (robot.connected 7%nat) = Some (motion.__init__ 7%nat) /\
  go2_SPORT_CMD !! "Move" = Some 1008 /\
  (normalised "Turn_Left" ∈ known_directions) /\
  normalised "Turn_Left" <> "stop" /\
  (let '(_, _, tr') :=
     run (robot.move go2_SPORT_CMD "Turn_Left" 0.5 2 true)
       (always (Response (Some 0))) (robot.connected 7%nat) [] in
   exists x y z,
     requests (since [] tr') = [move_request 1008 x y z] /\
     run (robot.move go2_SPORT_CMD
            (motion_patterns._get_expected_direction x y z) 0.5 2 true)
         (always (Response (Some 0))) (robot.connected 7%nat) []
     = run (robot.move go2_SPORT_CMD "Turn_Left" 0.5 2 true)
         (always (Response (Some 0))) (robot.connected 7%nat) []).
Proof.
  assert (0 < 0.5)%Q as Hpos by reflexivity.
  assert (normalised "Turn_Left" ∈ known_directions) as Hknown
    by compute_done.
  assert (normalised "Turn_Left" <> "stop") as Hstop by discriminate.
  split; [exact Hpos|]. split; [reflexivity|]. split; [reflexivity|].
  split; [exact Hknown|]. split; [exact Hstop|].
  exact (proj1 (expected_direction_round_trip go2_SPORT_CMD
                  (always (Response (Some 0))) (robot.connected 7%nat)
                  (motion.__init__ 7%nat) [] 1008 "Turn_Left" 0.5 2 true
                  Hpos eq_refl eq_refl Hknown Hstop)).
Defined.

(** ** What no sequence of calls does to the controller *)

Lemma kept_refl c : kept c c [].
Proof. repeat split; auto. Qed.

Lemma kept_trans c c1 c2 evs1 evs2 :
  kept c c1 evs1 -> kept c1 c2 evs2 -> kept c c2 (evs1 ++ evs2).
Proof.
  intros (Hk1 & Hn1 & Hm1) (Hk2 & Hn2 & Hm2). split; [congruence|]. split.
  - rewrite acknowledged_app. intros [H1 H2]%orb_false_iff.
    rewrite (Hn2 H2). by apply Hn1.
  - rewrite answers_app.
    destruct Hm2 as [Hsame|(mode & Hmode & Hin)].
    + destruct Hm1 as [Hsame1|(mode & Hmode & Hin)].
      * left. congruence.
      * right. exists mode. split; [congruence|].
        apply elem_of_app. by left.
    + right. exists mode. split; [done|]. apply elem_of_app. by right.
Qed.

Lemma kept_sleeping c c' evs d : kept c c' evs -> kept c c' (evs ++ [Slept d]).
Proof.
  intros H. apply (kept_trans c c' c' evs [Slept d] H). repeat split; auto.
Qed.

Lemma keeps_ret {A} (a : A) : keeps (Ret a).
Proof.
  intros net c tr. exists (Ok a), c, []. rewrite app_nil_r.
  split; [done|apply kept_refl].
Qed.

Lemma keeps_sleep d : keeps (sleep d).
Proof.
  intros net c tr. exists (Ok tt), c, [Slept d]. split; [done|].
  repeat split; auto.
Qed.

Lemma keeps_bind {A B} (m : coro MotionController A)
    (f : A -> coro MotionController B) :
  keeps m -> (forall a, keeps (f a)) -> keeps (m ≫= f).
Proof.
  intros Hm Hf net c tr. rewrite run_bind.
  destruct (Hm net c tr) as (res & c1 & evs1 & -> & H1).
  destruct res as [a|e].
  - destruct (Hf a net c1 (tr ++ evs1)) as (res & c2 & evs2 & -> & H2).
    exists res, c2, (evs1 ++ evs2). rewrite app_assoc.
    split; [done|]. by apply (kept_trans c c1 c2).
  - by exists (Exc e), c1, evs1.
Qed.

Lemma keeps_try_except {A} (body : coro MotionController A) handler :
  keeps body -> (forall e, keeps (handler e)) -> keeps (try_except body handler).
Proof.
  intros Hm Hh net c tr. rewrite run_try_except.
  destruct (Hm net c tr) as (res & c1 & evs1 & -> & H1).
  destruct res as [a|e].
  - by exists (Ok a), c1, evs1.
  - destruct (Hh e net c1 (tr ++ evs1)) as (res & c2 & evs2 & -> & H2).
    exists res, c2, (evs1 ++ evs2). rewrite app_assoc.
    split; [done|]. by apply (kept_trans c c1 c2).
Qed.

Section Keeps.

Variable SPORT_CMD : gmap string Z.

Lemma keeps_move x y z duration verify :
  keeps (motion.move SPORT_CMD x y z duration verify).
Proof.
  intros net c tr. rewrite run_move.
  destruct (SPORT_CMD !! "Move") as [api|].
  - cbv zeta. destruct (accepts _) eqn:E; eexists _, _, _;
      (split; [reflexivity|]); repeat split; auto; simpl; rewrite E; done.
  - exists (Ok false), c, []. rewrite app_nil_r. split; [done|apply kept_refl].
Qed.

Lemma keeps_stop : keeps (motion.stop SPORT_CMD).
Proof.
  intros net c tr. rewrite run_stop.
  destruct (SPORT_CMD !! "StopMove") as [api|].
  - cbv zeta. destruct (accepts _) eqn:E; eexists _, _, _;
      (split; [reflexivity|]); repeat split; auto; simpl; rewrite E; done.
  - exists (Ok false), c, []. rewrite app_nil_r. split; [done|apply kept_refl].
Qed.

Lemma keeps_switch_motion_mode mode : keeps (motion.switch_motion_mode mode).
Proof.
  intros net c tr. rewrite run_switch_motion_mode.
  destruct (motion.unsupported_mode mode).
  - exists (Ok false), c, []. rewrite app_nil_r. split; [done|apply kept_refl].
  - cbv zeta. destruct (accepts _) eqn:E; eexists _, _, _;
      (split; [reflexivity|]); (split; [done|]); split.
    + simpl. by rewrite E.
    + right. exists mode. split; [done|]. simpl. rewrite E.
      apply elem_of_cons. by left.
    + done.
    + by left.
Qed.

Lemma keeps_execute_sport_command command_name parameters verify :
  keeps (motion.execute_sport_command SPORT_CMD command_name parameters verify).
Proof.
  intros net c tr. rewrite run_execute_sport_command.
  destruct (SPORT_CMD !! command_name) as [api|].
  - cbv zeta. destruct (accepts _) eqn:E; eexists _, _, _;
      (split; [reflexivity|]); repeat split; auto.
  - exists (Ok false), c, []. rewrite app_nil_r. split; [done|apply kept_refl].
Qed.

Lemma keeps_walk_square side_length verify :
  keeps (motion_patterns.walk_square SPORT_CMD side_length verify).
Proof.
  unfold motion_patterns.walk_square, motion.move_forward, motion.move_right,
    motion.move_backward, motion.move_left.
  apply keeps_try_except; [|intros; apply keeps_ret].
  repeat first
    [ apply keeps_ret | apply keeps_sleep | apply keeps_stop
    | apply keeps_move
    | apply keeps_bind
    | intros [] ]; cbn [negb].
  all: repeat first
    [ apply keeps_ret | apply keeps_sleep | apply keeps_stop
    | apply keeps_move
    | apply keeps_bind
    | intros [] ].
Qed.

Lemma keeps_spin_360 direction verify :
  keeps (motion_patterns.spin_360 SPORT_CMD direction verify).
Proof.
  unfold motion_patterns.spin_360, motion.turn_right, motion.turn_left.
  apply keeps_try_except; [|intros; apply keeps_ret].
  apply keeps_bind.
  - case_bool_decide; apply keeps_move.
  - intros success. apply keeps_bind; [apply keeps_stop|].
    intros _. apply keeps_ret.
Qed.

Lemma keeps_handstand enable verify :
  keeps (motion_patterns.handstand SPORT_CMD enable verify).
Proof.
  apply keeps_try_except; [|intros; apply keeps_ret].
  apply keeps_execute_sport_command.
Qed.

Lemma keeps_flip command_name verify :
  keeps (try_except
           (motion.execute_sport_command SPORT_CMD command_name None verify)
           (fun e => Ret false)).
Proof.
  apply keeps_try_except; [|intros; apply keeps_ret].
  apply keeps_execute_sport_command.
Qed.

Lemma keeps_availability_loop commands availability :
  keeps (motion_patterns.availability_loop SPORT_CMD commands availability).
Proof.
  revert availability.
  induction commands as [|name rest IH]; intros availability.
  - apply keeps_ret.
  - cbn [motion_patterns.availability_loop]. apply keeps_bind.
    + intros net c tr. rewrite run_probe.
      destruct (SPORT_CMD !! name) as [api|].
      * cbv zeta. eexists _, _, _. split; [reflexivity|].
        repeat split; auto.
      * eexists _, c, []. rewrite app_nil_r. split; [done|apply kept_refl].
    + intros availability'. apply keeps_bind; [apply keeps_sleep|].
      intros _. apply IH.
Qed.

Lemma keeps_perform c : keeps (perform SPORT_CMD c).
Proof.
  destruct c; cbn [perform];
    (apply keeps_bind; [|intros; apply keeps_ret]).
  - apply keeps_switch_motion_mode.
  - apply keeps_move.
  - apply keeps_stop.
  - apply keeps_execute_sport_command.
  - apply keeps_walk_square.
  - apply keeps_spin_360.
  - apply keeps_handstand.
  - apply keeps_flip.
  - apply keeps_flip.
  - apply keeps_flip.
  - apply keeps_flip.
  - apply keeps_flip.
  - apply keeps_flip.
  - apply keeps_availability_loop.
Qed.

Lemma perform_returns c net s tr :
  exists s' tr', run (perform SPORT_CMD c) net s tr = (Ok tt, s', tr').
Proof.
  assert (forall {A} (m : coro MotionController A),
            (exists a s' tr', run m net s tr = (Ok a, s', tr')) ->
            exists s' tr', run (m;; Ret tt) net s tr = (Ok tt, s', tr')) as H.
  { intros A m (a & s' & tr' & Hm). rewrite run_bind, Hm. by eauto. }
  destruct c; cbn [perform]; apply H; try apply try_except_returns.
  destruct (run_availability_loop SPORT_CMD net
              motion_patterns.advanced_commands [] s tr)
    as (new & evs & Hrun & _).
  - unfold motion_patterns.advanced_commands. compute_done.
  - intros name _. apply not_elem_of_nil.
  - unfold motion_patterns.test_advanced_movement_availability.
    rewrite Hrun. by eauto.
Qed.

End Keeps.

(** X11. Whatever sequence of calls a caller makes to the controller --
    [switch_motion_mode], [move], [stop], [execute_sport_command],
    [walk_square], [spin_360], [handstand], the six flips and jumps,
    [test_advanced_movement_availability], with any arguments and any
    answers of the transport -- no call raises, the connection held by the
    controller is never replaced, the controller is exactly as it was
    unless some request was acknowledged, and its mode is the old one or a
    mode whose switch request was acknowledged. *)
Theorem calls_keep_the_controller
    (SPORT_CMD : gmap string Z) (net : transport) (calls : list call)
    (c : MotionController) (tr : trace) :
  exists c' evs,
    run (perform_all SPORT_CMD calls) net c tr = (Ok tt, c', tr ++ evs) /\
    kept c c' evs.
Proof.
  revert c tr. induction calls as [|call calls IH]; intros c tr.
  - exists c, []. rewrite app_nil_r. split; [done|apply kept_refl].
  - cbn [perform_all]. rewrite run_bind.
    destruct (keeps_perform SPORT_CMD call net c tr)
      as (res & c1 & evs1 & Hrun & H1).
    destruct (perform_returns SPORT_CMD call net c tr) as (s' & tr' & Hok).
    rewrite Hrun in Hok. injection Hok as -> _ _. rewrite Hrun.
    destruct (IH c1 (tr ++ evs1)) as (c2 & evs2 & -> & H2).
    exists c2, (evs1 ++ evs2). rewrite app_assoc. split; [done|].
    by apply (kept_trans c c1 c2).
Qed.

(** ** The test harnesses *)

Lemma run_robot_command_unknown SPORT_CMD net r tr command verify :
  SPORT_CMD !! PyStr.title command = None ->
  run (robot.command SPORT_CMD command verify) net r tr = (Ok false, r, tr).
Proof.
  intros Hnone. destruct (motion r) as [c0|] eqn:Hc.
  - rewrite (run_robot_command _ _ _ _ _ c0) by done.
    rewrite run_execute_sport_command, Hnone.
    by rewrite (set_get _ _ motion_field_laws).
  - by destruct (run_robot_not_connected SPORT_CMD net r tr "" command
                   0 0 verify Hc) as [_ ->].
Qed.

Lemma advanced_robot_field_laws :
  field_laws advanced_movement_test.robot advanced_movement_test.with_robot.
Proof.
  split; [done| |done].
  intros r [k r0 m]; simpl. by intros ->.
Qed.

(** X12. The pre-flight check of the advanced test harness asks
    [Robot.command] for ["BalanceStand"], which [Robot.command] title-cases
    into ["Balancestand"]. With a command table that has no entry of that
    name, the check therefore fails in every case: it returns [False]
    having done nothing beyond [get_motion_mode] -- no sport request is
    sent and [test_advanced_movements] is not reached -- and so does
    [safe_preparation_sequence], whatever the robot would answer. *)
Theorem pre_flight_check_never_passes
    (SPORT_CMD : gmap string Z)
    (get_motion_mode : coro advanced_movement_test.AdvancedMovementTester
                         (option string))
    (test_advanced_movements :
       coro advanced_movement_test.AdvancedMovementTester
         (list (string * bool)))
    (net : transport) (t : advanced_movement_test.AdvancedMovementTester)
    (tr : trace) :
  SPORT_CMD !! "Balancestand" = None ->
  let '(_, t1, tr1) := run get_motion_mode net t tr in
  run (advanced_movement_test.pre_flight_safety_check SPORT_CMD
         get_motion_mode test_advanced_movements) net t tr
    = (Ok false, t1, tr1) /\
  run (advanced_movement_test.safe_preparation_sequence SPORT_CMD
         get_motion_mode test_advanced_movements) net t tr
    = (Ok false, t1, tr1).
Proof.
  intros Hnone.
  assert (run (advanced_movement_test.pre_flight_safety_check SPORT_CMD
                 get_motion_mode test_advanced_movements) net t tr
          = let '(_, t1, tr1) := run get_motion_mode net t tr in
            (Ok false, t1, tr1)) as Hcheck.
  { unfold advanced_movement_test.pre_flight_safety_check.
    rewrite run_try_except, run_bind.
    destruct (run get_motion_mode net t tr) as [[[mode|e] t1] tr1]; [|done].
    rewrite run_bind. unfold advanced_movement_test.self_robot. cbn [run].
    destruct (advanced_movement_test.robot t1) as [r|] eqn:Er; [|done].
    rewrite (run_through advanced_movement_test.robot
               advanced_movement_test.with_robot _ net t1 r tr1
               advanced_robot_field_laws Er).
    rewrite run_robot_command_unknown by done.
    by rewrite (set_get _ _ advanced_robot_field_laws). }
  unfold advanced_movement_test.safe_preparation_sequence.
  rewrite run_try_except, run_bind, Hcheck.
  by destruct (run get_motion_mode net t tr) as [[res t1] tr1].
Qed.

Lemma pre_flight_check_never_passes_witness :
  let t := advanced_movement_test.Build_AdvancedMovementTester
             (Some 7%nat) (Some (robot.connected 7%nat)) None in
  go2_SPORT_CMD !! "Balancestand" = None /\
  go2_SPORT_CMD !! "BalanceStand" = Some 1002 /\
  run (advanced_movement_test.pre_flight_safety_check go2_SPORT_CMD
         (Ret (Some "mcf")) (Ret [])) (always (Response (Some 0))) t []
    = (Ok false, t, []) /\
  run (advanced_movement_test.safe_preparation_sequence go2_SPORT_CMD
         (Ret (Some "mcf")) (Ret [])) (always (Response (Some 0))) t []
    = (Ok false, t, []).
Proof.
  intros t. split; [reflexivity|]. split; [reflexivity|].
  apply (pre_flight_check_never_passes go2_SPORT_CMD (Ret (Some "mcf"))
           (Ret []) (always (Response (Some 0))) t []).
  reflexivity.
Defined.

(** X13. The harness method [emergency_stop] never raises and returns
    nothing. With a robot that holds a controller it makes the one request
    of [MotionController.stop] and waits for nothing; without a robot, or
    with a robot that was never connected, it does nothing at all. The
    tester's own connection is not used. *)
Theorem harness_emergency_stop_only_stops
    (SPORT_CMD : gmap string Z) (net : transport)
    (t : basic_movement_test.BasicMovementTester) (tr : trace) :
  let '(res, t', tr') :=
    run (basic_movement_test.emergency_stop SPORT_CMD) net t tr in
  let evs := since tr tr' in
  res = Ok tt /\
  basic_movement_test.conn t' = basic_movement_test.conn t /\
  sleeps evs = [] /\
  match basic_movement_test.robot t with
  | Some r =>
      match motion r, SPORT_CMD !! "StopMove" with
      | Some c, Some api =>
          requests evs = [stop_request api] /\
          basic_movement_test.robot t'
            = Some (with_motion
                      (if acknowledged evs then with_is_moving false c else c)
                      r)
      | _, _ => evs = [] /\ t' = t
      end
  | None => evs = [] /\ t' = t
  end.
Proof.
  rewrite run_harness_emergency_stop.
  destruct (basic_movement_test.robot t) as [r|] eqn:Er;
    [|by rewrite since_refl].
  destruct (motion r) as [c|] eqn:Ec; [|by rewrite since_refl].
  rewrite run_stop.
  destruct (SPORT_CMD !! "StopMove") as [api|]; simpl.
  - by on_reply.
  - rewrite since_refl. repeat split; try done.
    destruct t as [k r0]; simpl in *. rewrite Er.
    by rewrite (set_get _ _ motion_field_laws).
Qed.

(** X14. [safe_preparation_sequence] of the basic test harness never
    raises. If [get_motion_mode] raises, or the tester has no connection,
    or the table has no ["BalanceStand"], it returns [False] without a
    request. Otherwise it makes the one request for ["BalanceStand"] and
    returns [True] whenever the reply carries a status code, zero or not:
    a robot that rejects the command does not fail the preparation. It
    returns [False] only if the request raised or the reply had no status
    code. The waits are 2 s after an acknowledgement and 3 s before
    returning [True]. *)
Theorem preparation_passes_on_any_status_code
    (SPORT_CMD : gmap string Z)
    (get_motion_mode : coro basic_movement_runs.Tester (option string))
    (net : transport) (s : basic_movement_runs.Tester) (tr : trace) :
  let prepared :=
    run (basic_movement_runs.safe_preparation_sequence SPORT_CMD
           get_motion_mode) net s tr in
  match run get_motion_mode net s tr with
  | (Exc e, s1, tr1) => prepared = (Ok false, s1, tr1)
  | (Ok mode, s1, tr1) =>
      match basic_movement_test.conn (basic_movement_runs.tester s1),
            SPORT_CMD !! "BalanceStand" with
      | Some _, Some api =>
          let rq := Publish SPORT_MOD api None in
          let r := net tr1 rq in
          match result r with
          | Response (Some code) =>
              prepared =
                (Ok true, s1,
                 tr1 ++ Sent rq r ::
                   (if code =? 0 then [Slept 2; Slept 3] else [Slept 3]))
          | _ => prepared = (Ok false, s1, tr1 ++ [Sent rq r])
          end
      | _, _ => prepared = (Ok false, s1, tr1)
      end
  end.
Proof.
  cbv zeta. unfold basic_movement_runs.safe_preparation_sequence.
  rewrite run_try_except, run_bind.
  destruct (run get_motion_mode net s tr) as [[[mode|e] s1] tr1]; [|done].
  rewrite run_bind, run_try_except. cbn [run mbind coro_mbind coro_bind].
  destruct (basic_movement_test.conn (basic_movement_runs.tester s1))
    as [k|]; [|done].
  unfold motion.SPORT_CMD_item.
  destruct (SPORT_CMD !! "BalanceStand") as [api|]; [|done].
  simpl. destruct (net tr1 _) as [lat [e|[code|]]]; simpl; try done.
  destruct (code =? 0); simpl; by rewrite <- ?app_assoc.
Qed.

Section TestOnce.

Import basic_movement_test.

Variable net : transport.

Lemma requests_settle info : requests (settle info) = [].
Proof. unfold settle. by case_bool_decide. Qed.

Lemma acknowledged_settle info : acknowledged (settle info) = false.
Proof. unfold settle. by case_bool_decide. Qed.

Lemma attempt_loop_events n info parameters res0 t tr :
  let rq := sport_request (id info) parameters in
  exists res evs,
    run (attempt_loop n info parameters res0) net t tr
      = (Ok res, t, tr ++ evs) /\
    Forall (fun rq' => rq' = rq) (requests evs) /\
    (conn t = None -> evs = []) /\
    sleeps evs = (if acknowledged evs then sleeps (settle info) else []) /\
    (acknowledged evs = true ->
     exists evs0 r, evs = evs0 ++ Sent rq r :: settle info /\
                    acknowledged evs0 = false /\ accepts r = true).
Proof.
  intros rq. revert res0 tr. induction n as [|n IH]; intros res0 tr.
  - exists res0, []. rewrite app_nil_r. by repeat split.
  - cbn [attempt_loop]. rewrite run_bind, run_attempt. cbv zeta.
    fold rq. destruct (conn t) as [k|] eqn:Ek.
    + assert (forall res1 r,
                accepts r = false ->
                exists res evs,
                  run (attempt_loop n info parameters res1) net t
                      (tr ++ [Sent rq r]) = (Ok res, t, tr ++ evs) /\
                  Forall (fun rq' => rq' = rq) (requests evs) /\
                  (Some k = None -> evs = []) /\
                  sleeps evs
                    = (if acknowledged evs then sleeps (settle info) else [])
                  /\
                  (acknowledged evs = true ->
                   exists evs0 r, evs = evs0 ++ Sent rq r :: settle info /\
                                  acknowledged evs0 = false /\
                                  accepts r = true)) as Hretry.
      { intros res1 r Hr.
        destruct (IH res1 (tr ++ [Sent rq r]))
          as (res & evs & Hrun & Hall & _ & Hsl & Hack).
        exists res, (Sent rq r :: evs). split.
        { rewrite Hrun. by rewrite <- app_assoc. }
        split; [by constructor|]. split; [done|].
        assert (acknowledged (Sent rq r :: evs) = acknowledged evs) as ->
          by (simpl; by rewrite Hr).
        split; [done|].
        intros Ha. destruct (Hack Ha) as (evs0 & r0 & -> & Hno & Hyes).
        exists (Sent rq r :: evs0), r0. repeat split; try done.
        simpl. by rewrite Hr. }
      set (r := net tr rq).
      destruct (result r) as [e|[code|]] eqn:Er.
      * cbn [run]. apply Hretry. unfold accepts. by rewrite Er.
      * destruct (code =? 0) eqn:Ez.
        -- assert (accepts r = true) as Hr
             by (unfold accepts; by rewrite Er).
           eexists _, (Sent rq r :: settle info). split; [done|].
           split.
           { change (requests (Sent rq r :: settle info))
               with (rq :: requests (settle info)).
             rewrite requests_settle. by repeat constructor. }
           split; [done|].
           assert (acknowledged (Sent rq r :: settle info) = true) as ->
             by (simpl; by rewrite Hr).
           split; [done|]. intros _. by exists [], r.
        -- assert (accepts r = false) as Hr
             by (unfold accepts; by rewrite Er).
           case_bool_decide.
           ++ eexists _, [Sent rq r]. split; [done|].
              split; [by repeat constructor|]. split; [done|].
              simpl. rewrite Hr. by split.
           ++ cbn [run]. by apply Hretry.
      * cbn [run]. apply Hretry. unfold accepts. by rewrite Er.
    + cbn [run].
      destruct (IH (append_note (ExceptionNote (AttributeError "NoneType"))
                      (add_attempt res0)) tr)
        as (res & evs & Hrun & Hall & Hnone & Hsl & Hack).
      exists res, evs. by rewrite Hrun.
Qed.

End TestOnce.

(** X15. In [test_basic_movement], for a command of [BASIC_MOVEMENTS] other
    than the blocked one, every request of the retry loop is the same
    request: the api id that [BASIC_MOVEMENTS] records for the command (the
    driver's table is not consulted), with the parameters when they are a
    non-empty dictionary. Nothing is sent without a connection. The loop
    ends with the first acknowledged request: after it come only the wait
    for the execution time of the command's category (and 2 s more for a
    transition or safety command) and the final 1 s; without an
    acknowledgement only the final 1 s is waited. A name outside
    [BASIC_MOVEMENTS] makes the method raise [KeyError] before anything is
    sent. *)
Theorem test_basic_movement_events
    (net : transport) (t : basic_movement_test.BasicMovementTester)
    (tr : trace) (command_name : string) (parameters : option pydict)
    (max_attempts : Z) :
  (basic_movement_test.BASIC_MOVEMENTS !! command_name = None ->
   run (basic_movement_test.test_basic_movement command_name parameters
          max_attempts) net t tr = (Exc (KeyError command_name), t, tr)) /\
  (forall info,
     basic_movement_test.BASIC_MOVEMENTS !! command_name = Some info ->
     command_name <> "Damp" ->
     let rq := sport_request (basic_movement_test.id info) parameters in
     let category := basic_movement_test.movement_category info in
     exists res evs,
       run (basic_movement_test.test_basic_movement command_name parameters
              max_attempts) net t tr = (Ok res, t, tr ++ evs) /\
       Forall (fun rq' => rq' = rq) (requests evs) /\
       (basic_movement_test.conn t = None -> requests evs = []) /\
       sleeps evs =
         (if acknowledged evs
          then basic_movement_test.execution_time category ::
               (if bool_decide (category ∈ [basic_movement_test.transition;
                                            basic_movement_test.safety])
                then [2%Q] else [])
          else []) ++ [1%Q] /\
       (acknowledged evs = true ->
        exists evs0 r,
          evs = evs0 ++ Sent rq r :: settle info ++ [Slept 1] /\
          acknowledged evs0 = false /\ accepts r = true)).
Proof.
  split.
  - intros Hnone. unfold basic_movement_test.test_basic_movement.
    by rewrite Hnone.
  - intros info Hinfo HDamp rq category.
    unfold basic_movement_test.test_basic_movement. rewrite Hinfo.
    rewrite bool_decide_eq_false_2 by done. rewrite run_bind.
    match goal with
    | |- context [basic_movement_test.attempt_loop ?n ?i ?p ?r0] =>
        destruct (attempt_loop_events net n i p r0 t tr)
          as (res & evs & Hrun & Hall & Hnone & Hsl & Hack)
    end.
    rewrite Hrun.
    assert (forall res' : basic_movement_test.test_result,
              run (sleep 1;; Ret res') net t (tr ++ evs)
              = (Ok res', t, tr ++ evs ++ [Slept 1])) as Hend
      by (intros; simpl; by rewrite <- app_assoc).
    rewrite Hend. eexists _, (evs ++ [Slept 1]). split; [reflexivity|].
    rewrite requests_app, sleeps_app, acknowledged_app. simpl.
    rewrite app_nil_r, orb_false_r.
    split; [done|]. split; [by intros ->%Hnone|]. split.
    + rewrite Hsl. unfold settle. fold category.
      destruct (acknowledged evs); [|done]. by case_bool_decide.
    + intros Ha. destruct (Hack Ha) as (evs0 & r & -> & Hno & Hyes).
      exists evs0, r. by rewrite <- app_assoc.
Qed.

Lemma test_basic_movement_events_witness :
  let t := basic_movement_test.Build_BasicMovementTester (Some 7%nat) None in
  let net := always (Response (Some 0)) in
  let info :=
    basic_movement_test.Build_movement 1009 basic_movement_test.Medium
      basic_movement_test.transition in
  (basic_movement_test.BASIC_MOVEMENTS !! "Hello" = None /\
   run (basic_movement_test.test_basic_movement "Hello" None 1) net t []
     = (Exc (KeyError "Hello"), t, [])) /\
  (basic_movement_test.BASIC_MOVEMENTS !! "Sit" = Some info /\
   "Sit" <> "Damp" /\
   exists res evs,
     run (basic_movement_test.test_basic_movement "Sit" None 3) net t []
       = (Ok res, t, [] ++ evs) /\
     Forall (fun rq' => rq' = sport_request 1009 None) (requests evs) /\
     (basic_movement_test.conn t = None -> requests evs = []) /\
     sleeps evs =
       (if acknowledged evs
        then basic_movement_test.execution_time basic_movement_test.transition
             :: (if bool_decide (basic_movement_test.transition
                                 ∈ [basic_movement_test.transition;
                                    basic_movement_test.safety])
                 then [2%Q] else [])
        else []) ++ [1%Q] /\
     (acknowledged evs = true ->
      exists evs0 r,
        evs = evs0 ++ Sent (sport_request 1009 None) r :: settle info
                ++ [Slept 1] /\
        acknowledged evs0 = false /\ accepts r = true)).
Proof.
  intros t net info.
  assert (basic_movement_test.BASIC_MOVEMENTS !! "Hello" = None) as Hnone
    by reflexivity.
  assert (basic_movement_test.BASIC_MOVEMENTS !! "Sit" = Some info) as Hinfo
    by reflexivity.
  assert ("Sit" <> "Damp") as HDamp by discriminate.
  split.
  - split; [exact Hnone|].
    exact (proj1 (test_basic_movement_events net t [] "Hello" None 1) Hnone).
  - split; [exact Hinfo|]. split; [exact HDamp|].
    exact (proj2 (test_basic_movement_events net t [] "Sit" None 3)
             info Hinfo HDamp).
Defined.

(** ** The priority runs of the basic test harness *)

Section PriorityRuns.

Import basic_movement_test.

Variable net : transport.

Lemma tester_field_laws :
  field_laws (fun s => Some (basic_movement_runs.tester s))
    basic_movement_runs.with_tester.
Proof.
  split; [done| |done].
  intros t [t0 rs m]; simpl. by intros [= ->].
Qed.

(** A test with the default [max_attempts=1]. *)
Lemma run_test_once command_name info parameters t tr :
  BASIC_MOVEMENTS !! command_name = Some info ->
  command_name <> "Damp" ->
  exists res evs,
    run (test_basic_movement command_name parameters 1) net t tr
      = (Ok res, t, tr ++ evs) /\
    requests evs = match conn t with
                   | Some _ => [sport_request (id info) parameters]
                   | None => []
                   end /\
    command res = command_name /\
    attempts res = 1 /\
    result_status res = (if acknowledged evs then accepted else failed).
Proof.
  intros Hinfo HDamp. unfold test_basic_movement. rewrite Hinfo.
  rewrite bool_decide_eq_false_2 by done.
  change (Z.to_nat 1) with 1%nat. cbn [attempt_loop].
  rewrite !run_bind, run_attempt. cbv zeta.
  destruct (conn t) as [k|].
  - set (rq := sport_request (id info) parameters). set (r := net tr rq).
    unfold accepts.
    destruct (result r) as [e|[code|]] eqn:Er.
    + eexists _, [Sent rq r; Slept 1]. simpl. unfold accepts. rewrite Er.
      by rewrite <- app_assoc.
    + destruct (code =? 0) eqn:Ez.
      * unfold settle. destruct (movement_category info);
          eexists _, _; (split; [simpl; rewrite <- !app_assoc; reflexivity|]);
          simpl; unfold accepts; rewrite Er, Ez; done.
      * case_bool_decide; eexists _, [Sent rq r; Slept 1]; simpl;
          unfold accepts; rewrite Er, Ez; by rewrite <- app_assoc.
    + eexists _, [Sent rq r; Slept 1]. simpl. unfold accepts. rewrite Er.
      by rewrite <- app_assoc.
  - by eexists _, [Slept 1].
Qed.

Lemma run_high_priority_loop test_order :
  forall results (s : basic_movement_runs.Tester) tr,
    Forall (fun name =>
              basic_movement_runs.has_priority High name = true /\
              name <> "Damp") test_order ->
    exists new evs s',
      run (basic_movement_runs.high_priority_loop test_order results) net s tr
        = (Ok (foldl set_entry results new), s', tr ++ evs) /\
      map fst new = test_order /\
      basic_movement_runs.tester s' = basic_movement_runs.tester s /\
      basic_movement_runs.test_results s'
        = foldl set_entry (basic_movement_runs.test_results s) new /\
      requests evs
        = match conn (basic_movement_runs.tester s) with
          | Some _ => omap (test_request high_priority_parameters) test_order
          | None => []
          end /\
      Forall tested_once new.
Proof.
  induction test_order as [|name rest IH]; intros results s tr Hall.
  - exists [], [], s. rewrite app_nil_r. repeat split; try done.
    by destruct (conn _).
  - apply Forall_cons in Hall as [[Hprio HDamp] Hall].
    cbn [basic_movement_runs.high_priority_loop]. rewrite Hprio.
    unfold basic_movement_runs.has_priority in Hprio.
    destruct (BASIC_MOVEMENTS !! name) as [info|] eqn:Hinfo; [|done].
    assert ((if bool_decide (name = "Move")
             then basic_movement_runs.self_tester
                    (test_basic_movement name
                       (Some [("x", PyNum 0.2); ("y", PyNum 0); ("z", PyNum 0)])
                       1)
             else basic_movement_runs.self_tester
                    (test_basic_movement name None 1))
            = basic_movement_runs.self_tester
                (test_basic_movement name (high_priority_parameters name) 1))
      as -> by (unfold high_priority_parameters;
                by destruct (bool_decide (name = "Move"))).
    rewrite run_bind. unfold basic_movement_runs.self_tester.
    rewrite (run_through _ _ _ net s (basic_movement_runs.tester s) tr
               tester_field_laws eq_refl).
    destruct (run_test_once name info (high_priority_parameters name)
                (basic_movement_runs.tester s) tr Hinfo HDamp)
      as (res & evs1 & Hrun & Hreq & Hcmd & Hatt & Hst).
    rewrite Hrun. rewrite (set_get _ _ tester_field_laws) by done.
    rewrite run_bind. cbn [run basic_movement_runs.set_test_result].
    rewrite run_sleep_then.
    match goal with
    | |- context [run _ net ?s2 ?tr2] =>
        destruct (IH (motion_patterns.dict_set name res results) s2 tr2 Hall)
          as (new & evs & s' & Hloop & Hkeys & Htester & Hresults & Hreqs
              & Hnew)
    end.
    exists ((name, res) :: new), (evs1 ++ Slept 1 :: evs), s'.
    rewrite Hloop. split.
    { f_equal. by rewrite <- !app_assoc. }
    split; [simpl; by rewrite Hkeys|]. split; [done|]. split; [done|].
    split.
    { rewrite requests_app, Hreq.
      change (requests (Slept 1 :: evs)) with (requests evs).
      rewrite Hreqs. simpl.
      destruct (conn (basic_movement_runs.tester s)); [|done].
      unfold test_request at 2. by rewrite Hinfo. }
    constructor; [|done].
    repeat split; try done. simpl. rewrite Hst.
    destruct (acknowledged evs1); set_solver.
Qed.

Lemma run_medium_priority_loop test_order :
  forall results (s : basic_movement_runs.Tester) tr,
    Forall (fun name =>
              basic_movement_runs.has_priority Medium name = true /\
              name <> "Damp") test_order ->
    exists new evs s',
      run (basic_movement_runs.medium_priority_loop test_order results)
          net s tr
        = (Ok (foldl set_entry results new), s', tr ++ evs) /\
      map fst new = test_order /\
      basic_movement_runs.tester s' = basic_movement_runs.tester s /\
      basic_movement_runs.test_results s'
        = foldl set_entry (basic_movement_runs.test_results s) new /\
      requests evs
        = match conn (basic_movement_runs.tester s) with
          | Some _ => omap (test_request (fun _ => None)) test_order
          | None => []
          end /\
      Forall tested_once new.
Proof.
  induction test_order as [|name rest IH]; intros results s tr Hall.
  - exists [], [], s. rewrite app_nil_r. repeat split; try done.
    by destruct (conn _).
  - apply Forall_cons in Hall as [[Hprio HDamp] Hall].
    cbn [basic_movement_runs.medium_priority_loop]. rewrite Hprio.
    unfold basic_movement_runs.has_priority in Hprio.
    destruct (BASIC_MOVEMENTS !! name) as [info|] eqn:Hinfo; [|done].
    rewrite run_bind. unfold basic_movement_runs.self_tester.
    rewrite (run_through _ _ _ net s (basic_movement_runs.tester s) tr
               tester_field_laws eq_refl).
    destruct (run_test_once name info None
                (basic_movement_runs.tester s) tr Hinfo HDamp)
      as (res & evs1 & Hrun & Hreq & Hcmd & Hatt & Hst).
    rewrite Hrun. rewrite (set_get _ _ tester_field_laws) by done.
    rewrite run_bind. cbn [run basic_movement_runs.set_test_result].
    rewrite run_sleep_then.
    match goal with
    | |- context [run _ net ?s2 ?tr2] =>
        destruct (IH (motion_patterns.dict_set name res results) s2 tr2 Hall)
          as (new & evs & s' & Hloop & Hkeys & Htester & Hresults & Hreqs
              & Hnew)
    end.
    exists ((name, res) :: new), (evs1 ++ Slept 2 :: evs), s'.
    rewrite Hloop. split.
    { f_equal. by rewrite <- !app_assoc. }
    split; [simpl; by rewrite Hkeys|]. split; [done|]. split; [done|].
    split.
    { rewrite requests_app, Hreq.
      change (requests (Slept 2 :: evs)) with (requests evs).
      rewrite Hreqs. simpl.
      destruct (conn (basic_movement_runs.tester s)); [|done].
      unfold test_request at 2. by rewrite Hinfo. }
    constructor; [|done].
    repeat split; try done. simpl. rewrite Hst.
    destruct (acknowledged evs1); set_solver.
Qed.

End PriorityRuns.

(** The keys of a run are those of its test order, which are distinct. *)
Lemma foldl_set_entry_fresh {V} (new : list (string * V)) :
  NoDup (map fst new) -> foldl set_entry [] new = new.
Proof.
  assert (forall d : list (string * V),
            NoDup (map fst (d ++ new)) -> foldl set_entry d new = d ++ new)
    as H.
  { induction new as [|[k v] new IH]; intros d Hnd.
    - by rewrite app_nil_r.
    - simpl. unfold set_entry at 2. simpl.
      rewrite dict_set_fresh.
      + rewrite IH; rewrite <- app_assoc; done.
      + rewrite map_app in Hnd. apply NoDup_app in Hnd as (_ & Hd & _).
        intros Hin. apply (Hd k Hin). simpl. apply elem_of_cons. by left. }
  intros Hnd. by apply (H []).
Qed.

(** X16. [run_high_priority_tests] and [run_medium_priority_tests] never
    raise. Each tests the commands of its fixed order once, in that order,
    and returns one result per command under the command's name, recording
    the same results in [self.test_results]. With a connection the requests
    are exactly the api ids 1002, 1003, 1006, 1004 and then 1008 with the
    vector [x=0.2, y=0, z=0], respectively 1009, 1010 and 1005, whatever
    the robot answers; api id 1001 ([Damp]) is never requested. Without a
    connection nothing is sent. Every result has one attempt and is marked
    accepted or failed. *)
Theorem priority_runs_follow_the_test_order
    (net : transport) (s : basic_movement_runs.Tester) (tr : trace) :
  (exists results evs s',
     run basic_movement_runs.run_high_priority_tests net s tr
       = (Ok results, s', tr ++ evs) /\
     map fst results
       = ["BalanceStand"; "StopMove"; "RecoveryStand"; "StandUp"; "Move"] /\
     requests evs
       = match basic_movement_test.conn (basic_movement_runs.tester s) with
         | Some _ =>
             [Publish SPORT_MOD 1002 None; Publish SPORT_MOD 1003 None;
              Publish SPORT_MOD 1006 None; Publish SPORT_MOD 1004 None;
              Publish SPORT_MOD 1008
                (Some [("x", PyNum 0.2); ("y", PyNum 0); ("z", PyNum 0)])]
         | None => []
         end /\
     basic_movement_runs.tester s' = basic_movement_runs.tester s /\
     basic_movement_runs.test_results s'
       = foldl set_entry (basic_movement_runs.test_results s) results /\
     Forall tested_once results) /\
  (exists results evs s',
     run basic_movement_runs.run_medium_priority_tests net s tr
       = (Ok results, s', tr ++ evs) /\
     map fst results = ["Sit"; "RiseSit"; "StandDown"] /\
     requests evs
       = match basic_movement_test.conn (basic_movement_runs.tester s) with
         | Some _ =>
             [Publish SPORT_MOD 1009 None; Publish SPORT_MOD 1010 None;
              Publish SPORT_MOD 1005 None]
         | None => []
         end /\
     basic_movement_runs.tester s' = basic_movement_runs.tester s /\
     basic_movement_runs.test_results s'
       = foldl set_entry (basic_movement_runs.test_results s) results /\
     Forall tested_once results).
Proof.
  split.
  - destruct (run_high_priority_loop net
                ["BalanceStand"; "StopMove"; "RecoveryStand"; "StandUp";
                 "Move"] [] s tr)
      as (new & evs & s' & Hrun & Hkeys & Htester & Hresults & Hreqs & Hnew).
    { repeat constructor; done. }
    exists new, evs, s'.
    rewrite foldl_set_entry_fresh in Hrun
      by (rewrite Hkeys; compute_done).
    repeat split; try done.
  - destruct (run_medium_priority_loop net ["Sit"; "RiseSit"; "StandDown"]
                [] s tr)
      as (new & evs & s' & Hrun & Hkeys & Htester & Hresults & Hreqs & Hnew).
    { repeat constructor; done. }
    exists new, evs, s'.
    rewrite foldl_set_entry_fresh in Hrun
      by (rewrite Hkeys; compute_done).
    repeat split; try done.
Qed.

(** ** The acrobatic methods and the convenience commands *)

(** X17. Each of [front_flip], [back_flip], [left_flip], [right_flip],
    [front_jump] and [front_pounce] is [execute_sport_command] for its own
    table name without parameters, and the request it makes is the one by
    which [test_advanced_movement_availability] probes that name. The
    request of [handstand], which carries a parameter, is never among the
    probes: the availability reported for ["Handstand"] is about another
    request than the one [handstand] makes. *)
Theorem flips_send_the_probed_requests
    (SPORT_CMD : gmap string Z) (net : transport) (verify : bool)
    (c : MotionController) (tr : trace) :
  Forall (fun mn : (bool -> coro MotionController bool) * string =>
            run (mn.1 verify) net c tr
              = run (motion.execute_sport_command SPORT_CMD mn.2 None verify)
                  net c tr /\
            requests (since tr (run (mn.1 verify) net c tr).2)
              = match probe SPORT_CMD mn.2 with
                | Some rq => [rq]
                | None => []
                end)
    [(motion_patterns.front_flip SPORT_CMD, "FrontFlip");
     (motion_patterns.back_flip SPORT_CMD, "BackFlip");
     (motion_patterns.left_flip SPORT_CMD, "LeftFlip");
     (motion_patterns.right_flip SPORT_CMD, "RightFlip");
     (motion_patterns.front_jump SPORT_CMD, "FrontJump");
     (motion_patterns.front_pounce SPORT_CMD, "FrontPounce")] /\
  (forall enable rq name,
     rq ∈ requests
            (since tr (run (motion_patterns.handstand SPORT_CMD enable verify)
                         net c tr).2) ->
     probe SPORT_CMD name <> Some rq).
Proof.
  assert (forall name,
            run (try_except
                   (motion.execute_sport_command SPORT_CMD name None verify)
                   (fun e => Ret false)) net c tr
              = run (motion.execute_sport_command SPORT_CMD name None verify)
                  net c tr /\
            requests
              (since tr
                 (run (try_except
                         (motion.execute_sport_command SPORT_CMD name None
                            verify)
                         (fun e => Ret false)) net c tr).2)
              = match probe SPORT_CMD name with
                | Some rq => [rq]
                | None => []
                end) as Hflip.
  { intros name. rewrite run_try_except, run_execute_sport_command.
    unfold probe. destruct (SPORT_CMD !! name) as [api|]; simpl.
    - destruct (accepts _); simpl; by rewrite since_app.
    - by rewrite since_refl. }
  split.
  - repeat constructor; apply Hflip.
  - intros enable rq name.
    unfold motion_patterns.handstand.
    rewrite run_try_except, run_execute_sport_command.
    unfold probe.
    destruct (SPORT_CMD !! "StandOut") as [api|]; simpl.
    + assert (rq ∈ [sport_request api (Some [("data", PyBool enable)])] ->
              (fun api => Publish SPORT_MOD api None) <$> SPORT_CMD !! name
                <> Some rq) as H.
      { intros ->%list_elem_of_singleton.
        destruct (SPORT_CMD !! name); simpl; [|done]. by intros [=]. }
      destruct (accepts _); simpl; rewrite since_app; exact H.
    + rewrite since_refl. by intros ?%elem_of_nil.
Qed.

Lemma flips_send_the_probed_requests_witness :
  let table := <["StandOut" := 1039]> go2_SPORT_CMD in
  let rq := Publish SPORT_MOD 1039 (Some [("data", PyBool true)]) in
  rq ∈ requests
         (since []
            (run (motion_patterns.handstand table true true)
               (always (Response (Some 0))) (motion.__init__ 7%nat) []).2) /\
  probe table "Handstand" <> Some rq.
Proof.
  intros table rq.
  assert (rq ∈ requests
                 (since []
                    (run (motion_patterns.handstand table true true)
                       (always (Response (Some 0))) (motion.__init__ 7%nat)
                       []).2)) as Hin
    by (apply elem_of_cons; by left).
  split; [exact Hin|].
  exact (proj2 (flips_send_the_probed_requests table
                  (always (Response (Some 0))) true (motion.__init__ 7%nat)
                  [])
           true rq "Handstand" Hin).
Defined.

(** X18. [Robot.hello], [Robot.sit] and [Robot.stand_up] look up the names
    ["Hello"], ["Sit"] and ["Standup"]. With a table that has no
    ["Standup"], whether or not it has ["StandUp"], [stand_up] returns
    [False] without a request and without a change, on every robot and
    whatever the transport would answer. *)
Theorem stand_up_looks_up_Standup
    (SPORT_CMD : gmap string Z) (net : transport) (r : Robot) (tr : trace) :
  (run (robot.hello SPORT_CMD) net r tr
     = run (robot.command SPORT_CMD "Hello" true) net r tr /\
   run (robot.sit SPORT_CMD) net r tr
     = run (robot.command SPORT_CMD "Sit" true) net r tr /\
   run (robot.stand_up SPORT_CMD) net r tr
     = run (robot.command SPORT_CMD "Standup" true) net r tr) /\
  (SPORT_CMD !! "Standup" = None ->
   run (robot.stand_up SPORT_CMD) net r tr = (Ok false, r, tr)).
Proof.
  split; [by repeat split|].
  intros Hnone. by apply run_robot_command_unknown.
Qed.

Lemma stand_up_looks_up_Standup_witness :
  go2_SPORT_CMD !! "Standup" = None /\
  go2_SPORT_CMD !! "StandUp" = Some 1004 /\
  run (robot.stand_up go2_SPORT_CMD) (always (Response (Some 0)))
      (robot.connected 7%nat) []
    = (Ok false, robot.connected 7%nat, []).
Proof.
  assert (go2_SPORT_CMD !! "Standup" = None) as H by reflexivity.
  split; [exact H|]. split; [reflexivity|].
  exact (proj2 (stand_up_looks_up_Standup go2_SPORT_CMD
                  (always (Response (Some 0))) (robot.connected 7%nat) [])
           H).
Defined.

(** Case analysis on one test of the direction in [Robot.move]. *)
Ltac on_direction P :=
  let Hd := fresh "Hd" in
  destruct (decide P) as [Hd|Hd];
  [ rewrite (bool_decide_eq_true_2 P Hd)
  | rewrite (bool_decide_eq_false_2 P Hd) ].

(** X19. [Robot.is_moving] never raises and changes nothing. The answer of
    the analytics engine, when there is one and it does not raise, is the
    result. Otherwise the result is the controller's flag, and [False]
    without a controller: so right after [Robot.move] on a connected robot
    it is [True] if a move was acknowledged -- although [move] returns only
    after the movement's duration -- [False] if a stop was acknowledged,
    and what it was before the call if nothing was acknowledged. *)
Theorem is_moving_reports_the_last_acknowledged_move
    (SPORT_CMD : gmap string Z) (net : transport) (r : Robot)
    (c : MotionController) (tr : trace)
    (direction : string) (speed duration : Q) (verify : bool) :
  motion r = Some c ->
  (forall moving r0 tr0,
     run (robot_patterns.is_moving (Some (Ok moving))) net r0 tr0
       = (Ok moving, r0, tr0)) /\
  (forall e,
     run (robot_patterns.is_moving (Some (Exc e))) net r tr
       = run (robot_patterns.is_moving None) net r tr) /\
  run (robot_patterns.is_moving None) net r tr = (Ok (is_moving c), r, tr) /\
  (let '(_, r', tr') :=
     run (robot.move SPORT_CMD direction speed duration verify) net r tr in
   run (robot_patterns.is_moving None) net r' tr'
     = (Ok (if acknowledged (since tr tr')
            then negb (bool_decide (normalised direction = "stop"))
            else is_moving c), r', tr')).
Proof.
  intros Hc. split; [done|]. split; [done|]. split.
  { unfold robot_patterns.is_moving. cbn [run]. by rewrite Hc. }
  rewrite (run_robot_move SPORT_CMD net _ _ _ _ r c tr Hc).
  unfold move_call. cbv zeta. fold (normalised direction).
  unfold motion.move_forward, motion.move_backward, motion.move_left,
    motion.move_right, motion.turn_left, motion.turn_right.
  assert (forall x y z,
            normalised direction <> "stop" ->
            let '(_, r', tr') :=
              (let '(res, c', tr') :=
                 run (motion.move SPORT_CMD x y z duration verify) net c tr in
               (res, with_motion c' r, tr')) in
            run (robot_patterns.is_moving None) net r' tr'
              = (Ok (if acknowledged (since tr tr')
                     then negb (bool_decide (normalised direction = "stop"))
                     else is_moving c), r', tr')) as Hmove.
  { intros x y z Hns. rewrite bool_decide_eq_false_2 by done.
    rewrite run_move. destruct (SPORT_CMD !! "Move") as [api|]; simpl.
    - by on_reply.
    - by rewrite since_refl. }
  assert (forall name, name <> "stop" -> normalised direction = name ->
            normalised direction <> "stop") as Hname by congruence.
  assert (forall name1 name2, name1 <> "stop" -> name2 <> "stop" ->
            normalised direction ∈ [name1; name2] ->
            normalised direction <> "stop") as Hnames.
  { intros name1 name2 H1 H2.
    rewrite !elem_of_cons, elem_of_nil. intros [->|[->|[]]]; done. }
  on_direction (normalised direction = "forward");
    [by apply Hmove, (Hname "forward")|].
  on_direction (normalised direction = "backward");
    [by apply Hmove, (Hname "backward")|].
  on_direction (normalised direction = "left");
    [by apply Hmove, (Hname "left")|].
  on_direction (normalised direction = "right");
    [by apply Hmove, (Hname "right")|].
  on_direction (normalised direction ∈ ["turn-left"; "turnleft"]);
    [by apply Hmove, (Hnames "turn-left" "turnleft")|].
  on_direction (normalised direction ∈ ["turn-right"; "turnright"]);
    [by apply Hmove, (Hnames "turn-right" "turnright")|].
  case_bool_decide as Hs.
  - rewrite run_stop. destruct (SPORT_CMD !! "StopMove") as [api|]; simpl.
    + by on_reply.
    + by rewrite since_refl.
  - rewrite since_refl. unfold robot_patterns.is_moving. cbn [run].
    by rewrite Hc.
Qed.

Lemma is_moving_reports_the_last_acknowledged_move_witness :
  motion (robot.connected 7%nat) = Some (motion.__init__ 7%nat) /\
  (let '(_, r', tr') :=
     run (robot.move go2_SPORT_CMD "forward" 0.5 2 true)
       (always (Response (Some 0))) (robot.connected 7%nat) [] in
   run (robot_patterns.is_moving None) (always (Response (Some 0))) r' tr'
     = (Ok (if acknowledged (since [] tr')
            then negb (bool_decide (normalised "forward" = "stop"))
            else is_moving (motion.__init__ 7%nat)), r', tr')).
Proof.
  split; [reflexivity|].
  apply (is_moving_reports_the_last_acknowledged_move go2_SPORT_CMD
           (always (Response (Some 0))) (robot.connected 7%nat)
           (motion.__init__ 7%nat) [] "forward" 0.5 2 true).
  reflexivity.
Defined.
